(** * Meshcapade avatar export: a model of [export.py] and its properties

    The script asks the Meshcapade API to export an avatar, polls until the
    export is ready, and downloads the file.  Its functions are embedded
    here as computations over an explicit world (simulated clock, file
    system, log of the effects performed) that can raise Python exceptions.
    The remote service, the process environment and the library calls the
    script relies on are gathered in a record [environment].

    Time is simulated: a POST takes the time the environment gives it,
    [time.sleep] takes the time asked for, and nothing else takes time.
    The [while] loop of [export_avatar] is unbounded in the script; its
    model takes a bound on the iterations, and the properties say which
    bound is enough. *)

From Stdlib Require Import QArith Qround Lqa.
From stdpp Require Import gmap strings list fin_maps.

Local Open Scope string_scope.
Local Set Warnings "-register-all".

(** ** Python values obtained from JSON

    [response.json()] yields dictionaries, lists, strings, numbers,
    booleans and [None].  A dictionary is a finite map on its keys. *)

Inductive json : Type :=
  | JNull
  | JBool (b : bool)
  | JInt (z : Z)
  | JFloat (q : Q)
  | JStr (s : string)
  | JArr (items : list json)
  | JObj (members : gmap string json).

(** Python's truth value of an object, as used by [not x] and [if x]. *)
Definition truthy (v : json) : bool :=
  match v with
  | JNull => false
  | JBool b => b
  | JInt z => negb (Z.eqb z 0)
  | JFloat q => negb (Qeq_bool q 0)
  | JStr s => negb (String.eqb s "")
  | JArr items => match items with [] => false | _ => true end
  | JObj members => negb (bool_decide (members = ∅))
  end.

(** The name of a value's Python type, as it appears in an AttributeError. *)
Definition type_name (v : json) : string :=
  match v with
  | JNull => "NoneType"
  | JBool _ => "bool"
  | JInt _ => "int"
  | JFloat _ => "float"
  | JStr _ => "str"
  | JArr _ => "list"
  | JObj _ => "dict"
  end.

(** [v == s] for a string constant [s]: only the string itself is equal. *)
Definition eq_str (v : json) (s : string) : bool :=
  match v with
  | JStr t => String.eqb t s
  | _ => false
  end.

(** ** Formatted text and exceptions

    An f-string is kept as the sequence of its pieces: literal text and the
    values formatted into it. *)

Inductive piece : Type :=
  | Lit (s : string)
  | FmtStr (s : string)
  | FmtInt (z : Z)
  | FmtValue (v : json)
  | FmtPath (parts : list string).

Abbreviation text := (list piece).

Inductive exn : Type :=
  | ValueError (msg : text)
  | RuntimeError (msg : text) (cause : option exn)
  | TimeoutError (msg : text)
  | AttributeError (msg : text)
  | OSError (errno : Z) (strerror : string) (filename : list string)
  | HTTPError (msg : text)
  | RequestException (kind : string) (msg : text).

(** [str(e)]: the message the exception was built with. *)
Definition str_exn (e : exn) : text :=
  match e with
  | ValueError msg | RuntimeError msg _ | TimeoutError msg
  | AttributeError msg | HTTPError msg | RequestException _ msg => msg
  | OSError errno strerror filename =>
      [Lit "[Errno "; FmtInt errno; Lit "] "; Lit strerror; Lit ": ";
       FmtPath filename]
  end.

Definition no_attribute (v : json) (attr : string) : exn :=
  AttributeError [Lit "'"; Lit (type_name v); Lit "' object has no attribute '";
                  Lit attr; Lit "'"].

(** Outcome of a computation: a value, a raised exception, or the loop
    bound of the model reached. *)
Inductive result (A : Type) : Type :=
  | Done (a : A)
  | Raise (e : exn)
  | OutOfFuel.
Arguments Done {A} a.
Arguments Raise {A} e.
Arguments OutOfFuel {A}.

(** [d.get(key, default)]; only dictionaries have the method. *)
Definition py_get (v : json) (key : string) (dflt : json) : result json :=
  match v with
  | JObj members => Done (default dflt (members !! key))
  | _ => Raise (no_attribute v "get")
  end.

(** ** The world the script runs in *)

Inductive stream : Type := Stdout | Stderr.

(** A path is the sequence of its parts, as [pathlib] splits it: the empty
    sequence is the current directory, an absolute path starts with the
    part ["/"]. *)
Abbreviation path := (list string).

Inductive node : Type :=
  | Dir
  | File (content : list Byte.byte).

(** What a response of the HTTP client carries besides its payload. *)
Record response : Type := {
  status_code : Z;
  reason : string;
  response_url : string;
}.

(** A POST either fails in transport or is answered; [body] is what
    [response.json()] gives, a value or the error of a body that is not
    JSON. *)
Inductive post_outcome : Type :=
  | PostFailed (e : exn)
  | PostResponse (r : response) (body : result json).

(** The body of a streamed response: the bytes that arrive, and the sizes
    of the pieces in which [iter_content(chunk_size)] hands them over.  The
    pieces are those the transfer delivers, whatever chunk size was asked
    for. *)
Record streamed : Type := {
  received : list Byte.byte;
  piece_sizes : Z -> list nat;
}.

(** A streamed GET either fails in transport or is answered; [content] is
    the body the stream delivers and [broken] the error, if any, with
    which it breaks off after that. *)
Inductive get_outcome : Type :=
  | GetFailed (e : exn)
  | GetResponse (r : response) (content : streamed) (broken : option exn).

(** [parser.parse_args()] either hands over [args.asset_id] or ends the
    process itself, after a message on one of the streams: status 2 for a
    command line it does not accept, 0 for a request for help. *)
Inductive parse_outcome : Type :=
  | Parsed (asset_id : string)
  | ParserExit (to : stream) (message : text) (status : Z).

(** The effects the script performs, in the order it performs them. *)
Inductive event : Type :=
  | EPrint (to : stream) (line : text)
  | EPost (url : string) (headers : gmap string string) (payload : json)
  | ESleep (secs : Q)
  | EMkdir (p : path)
  | EOpen (p : path)
  | EGet (url : json) (timeout : Z)
  | EWrite (p : path) (chunk : list Byte.byte).

(** Everything outside the script: the process environment, the remote
    service (the outcome of the k-th POST and the time it takes, the
    outcome of a GET), [pathlib]'s splitting of a path string and
    [argparse]'s reading of the command line. *)
Record environment : Type := {
  parse_args : list string -> parse_outcome;
  getenv : string -> option string;
  http_post : nat -> post_outcome;
  post_latency : nat -> Q;
  http_get : json -> get_outcome;
  path_parts : string -> path;
}.

Record world : Type := {
  clock : Q;
  posts : nat;
  files : gmap path node;
  trace : list event;
}.

Definition log (e : event) (w : world) : world :=
  {| clock := clock w; posts := posts w; files := files w;
     trace := trace w ++ [e] |}.

Definition set_files (fs : gmap path node) (w : world) : world :=
  {| clock := clock w; posts := posts w; files := fs; trace := trace w |}.

(** ** Computations: state passing with exceptions *)

Definition M (A : Type) : Type := world -> result A * world.

Definition ret {A} (a : A) : M A := fun w => (Done a, w).
Definition raise {A} (e : exn) : M A := fun w => (Raise e, w).
Definition lift {A} (r : result A) : M A := fun w => (r, w).

Definition bind {A B} (c : M A) (k : A -> M B) : M B :=
  fun w =>
    match c w with
    | (Done a, w') => k a w'
    | (Raise e, w') => (Raise e, w')
    | (OutOfFuel, w') => (OutOfFuel, w')
    end.

(** [try: c except Exception as e: handler e] *)
Definition try_except {A} (c : M A) (handler : exn -> M A) : M A :=
  fun w =>
    match c w with
    | (Raise e, w') => handler e w'
    | other => other
    end.

Notation "'let*' x ':=' c 'in' k" := (bind c (fun x => k))
  (at level 10, x name, c at level 100, k at level 200).
Notation "c ';;' k" := (bind c (fun _ => k))
  (at level 100, k at level 200, right associativity).

Definition result_bind {A B} (r : result A) (k : A -> result B) : result B :=
  match r with
  | Done a => k a
  | Raise e => Raise e
  | OutOfFuel => OutOfFuel
  end.

Notation "'let?' x ':=' r 'in' k" := (result_bind r (fun x => k))
  (at level 10, x name, r at level 100, k at level 200).

Definition print (to : stream) (line : text) : M unit :=
  fun w => (Done tt, log (EPrint to line) w).

(** [time.time()] reads the clock; [time.sleep(secs)] advances it by
    [secs]. *)
Definition time_time : M Q := fun w => (Done (clock w), w).

Definition time_sleep (secs : Z) : M unit :=
  fun w =>
    (Done tt,
     {| clock := (clock w + inject_Z secs)%Q; posts := posts w; files := files w;
        trace := trace w ++ [ESleep (inject_Z secs)] |}).

(** [int(x)] on a float: truncation towards zero. *)
Definition int_of (x : Q) : Z :=
  if Qle_bool 0 x then Qfloor x else Qceiling x.

(** ** The export request *)

Section Script.

Context (env : environment).

(** The world after the next POST has been sent and answered. *)
Definition after_post (url : string) (headers : gmap string string)
    (payload : json) (w : world) : world :=
  {| clock := (clock w + post_latency env (posts w))%Q; posts := S (posts w);
     files := files w; trace := trace w ++ [EPost url headers payload] |}.

Definition requests_post (url : string) (headers : gmap string string)
    (payload : json) : M (response * result json) :=
  fun w =>
    match http_post env (posts w) with
    | PostFailed e => (Raise e, after_post url headers payload w)
    | PostResponse r body => (Done (r, body), after_post url headers payload w)
    end.

(** [response.raise_for_status()] *)
Definition raise_for_status (r : response) : result unit :=
  if (400 <=? status_code r)%Z && (status_code r <? 500)%Z then
    Raise (HTTPError [FmtInt (status_code r); Lit " Client Error: ";
                      FmtStr (reason r); Lit " for url: "; FmtStr (response_url r)])
  else if (500 <=? status_code r)%Z && (status_code r <? 600)%Z then
    Raise (HTTPError [FmtInt (status_code r); Lit " Server Error: ";
                      FmtStr (reason r); Lit " for url: "; FmtStr (response_url r)])
  else Done tt.

(** ** [try_get_download_url] *)

Definition API_BASE_URL : string := "https://api.meshcapade.com/api/v1".
Definition ASSET_STATE_READY : string := "READY".
Definition ASSET_STATE_ERROR : string := "ERROR".

Definition export_url (asset_id : string) : string :=
  API_BASE_URL ++ "/avatars/" ++ asset_id ++ "/export".

Definition export_headers (token : string) : gmap string string :=
  {[ "Authorization" := "Bearer " ++ token;
     "Content-Type" := "application/json" ]}.

(** The part of [try_get_download_url] after [response.json()]: state and
    download URL are read from the JSON:API document
    [{ "data": { "attributes": { "state": .., "url": { "path": .. } } } }]. *)
Definition read_export (response_json : json) : result json :=
  let? data := py_get response_json "data" (JObj ∅) in
  let? attributes := py_get data "attributes" (JObj ∅) in
  if negb (truthy attributes) then
    Raise (ValueError [Lit "Export response came back empty: ";
                       FmtValue response_json])
  else
    let? state := py_get attributes "state" JNull in
    let? url_obj := py_get attributes "url" (JObj ∅) in
    let? download_url :=
      (if truthy url_obj then py_get url_obj "path" JNull else Done JNull) in
    if eq_str state ASSET_STATE_READY then Done download_url
    else if eq_str state ASSET_STATE_ERROR then
      Raise (RuntimeError [Lit "Export finished with ERROR state: ";
                           FmtValue response_json] None)
    else Done JNull.

Definition try_get_download_url (token asset_id : string)
    (export_payload : json) : M json :=
  let url := export_url asset_id in
  let headers := export_headers token in
  let* reply := requests_post url headers export_payload in
  lift (raise_for_status (fst reply));;
  let* response_json := lift (snd reply) in
  lift (read_export response_json).

End Script.

(** ** [export_avatar] *)

Section Poll.

Context (env : environment).

Definition poll_interval : Z := 5.
Definition max_wait : Z := 600.

Definition export_payload : json :=
  JObj {[ "format" := JStr "GLB"; "anim" := JStr "scan" ]}.

(** The [while not download_url] loop.  [fuel] bounds the number of
    iterations of the model; the loop itself has no such bound. *)
Fixpoint poll_loop (fuel : nat) (token asset_id : string) (start_time : Q)
    (download_url : json) : M json :=
  if negb (truthy download_url) then
    match fuel with
    | O => lift OutOfFuel
    | S fuel' =>
        let* download_url :=
          try_get_download_url env token asset_id export_payload in
        if truthy download_url then ret download_url
        else
          let* now := time_time in
          let elapsed := (now - start_time)%Q in
          if negb (Qle_bool elapsed (inject_Z max_wait)) then
            raise (TimeoutError [Lit "Export timed out after ";
                                 FmtInt max_wait; Lit " seconds"])
          else
            print Stdout [Lit "Export processing... (elapsed: ";
                          FmtInt (int_of elapsed); Lit "s)"];;
            time_sleep poll_interval;;
            poll_loop fuel' token asset_id start_time download_url
    end
  else ret download_url.

Definition export_avatar (fuel : nat) (token asset_id : string) : M json :=
  let* start_time := time_time in
  poll_loop fuel token asset_id start_time JNull.

End Poll.

(** ** The file system

    The current directory [[]] and the root [["/"]] always exist; every
    other path is looked up in the map of the world.  The parts of a path
    are taken as names: the model has no links and gives [..] no meaning,
    so that two paths are the same entry only when their parts are. *)

Definition is_base (p : path) : bool :=
  match p with
  | [] => true
  | [name] => String.eqb name "/"
  | _ => false
  end.

Definition lookup_node (fs : gmap path node) (p : path) : option node :=
  if is_base p then Some Dir else fs !! p.

(** [Path.parent] *)
Definition parent (p : path) : path :=
  if is_base p then p else removelast p.

Definition FileExistsError : path -> exn := OSError 17 "File exists".
Definition NotADirectoryError : path -> exn := OSError 20 "Not a directory".
Definition IsADirectoryError : path -> exn := OSError 21 "Is a directory".
Definition FileNotFoundError : path -> exn :=
  OSError 2 "No such file or directory".

(** [Path.mkdir(parents=True, exist_ok=True)], walking down from the base:
    a missing directory is created, an existing one is kept, a file in the
    way is an error.  [above] is the part of the path already walked. *)
Fixpoint makedirs (above : path) (below : list string)
    (fs : gmap path node) : result unit * gmap path node :=
  match below with
  | [] => (Done tt, fs)
  | name :: rest =>
      let p := (above ++ [name])%list in
      match lookup_node fs p with
      | None => makedirs p rest (<[p := Dir]> fs)
      | Some Dir => makedirs p rest fs
      | Some (File _) =>
          (Raise (match rest with
                  | [] => FileExistsError p
                  | _ => NotADirectoryError (p ++ rest)%list
                  end), fs)
      end
  end.

Definition path_mkdir (p : path) : M unit :=
  fun w =>
    let (r, fs) := makedirs [] p (files w) in
    (r, log (EMkdir p) (set_files fs w)).

(** [open(p, "wb")]: the file is created, or truncated when it exists. *)
Definition open_wb (p : path) : M unit :=
  fun w =>
    let w' := log (EOpen p) w in
    match lookup_node (files w) p with
    | Some Dir => (Raise (IsADirectoryError p), w')
    | _ =>
        match lookup_node (files w) (parent p) with
        | Some Dir => (Done tt, set_files (<[p := File []]> (files w)) w')
        | Some (File _) => (Raise (NotADirectoryError p), w')
        | None => (Raise (FileNotFoundError p), w')
        end
    end.

Definition append_bytes (chunk : list Byte.byte) (n : node) : node :=
  match n with
  | File content => File (content ++ chunk)%list
  | Dir => Dir
  end.

(** [f.write(chunk)] on the file opened at [p]. *)
Definition file_write (p : path) (chunk : list Byte.byte) : M unit :=
  fun w =>
    (Done tt,
     log (EWrite p chunk) (set_files (alter (append_bytes chunk) p (files w)) w)).

(** ** [download_file] *)

(** The bytes cut into pieces of the given sizes; what is left over when
    the sizes run out is the last piece. *)
Fixpoint pieces (sizes : list nat) (bytes : list Byte.byte)
    : list (list Byte.byte) :=
  match bytes with
  | [] => []
  | _ :: _ =>
      match sizes with
      | [] => [bytes]
      | size :: sizes' => take size bytes :: pieces sizes' (drop size bytes)
      end
  end.

(** [response.iter_content(chunk_size)]: the body in the pieces the
    transfer delivers for that chunk size. *)
Definition iter_content (chunk_size : Z) (content : streamed)
    : list (list Byte.byte) :=
  pieces (piece_sizes content chunk_size) (received content).

Section Download.

Context (env : environment).

Definition requests_get (url : json) (timeout : Z)
    : M (response * streamed * option exn) :=
  fun w =>
    match http_get env url with
    | GetFailed e => (Raise e, log (EGet url timeout) w)
    | GetResponse r content broken =>
        (Done (r, content, broken), log (EGet url timeout) w)
    end.

(** [for chunk in chunks: f.write(chunk)] *)
Fixpoint write_chunks (p : path) (chunks : list (list Byte.byte)) : M unit :=
  match chunks with
  | [] => ret tt
  | chunk :: chunks' => file_write p chunk;; write_chunks p chunks'
  end.

Definition download_file (download_url : json) (output_path : string)
    : M unit :=
  let output_file := path_parts env output_path in
  path_mkdir (parent output_file);;
  open_wb output_file;;
  let* reply :=
    try_except
      (let* reply := requests_get download_url 60 in
       lift (raise_for_status (fst (fst reply)));;
       ret reply)
      (fun err =>
         match err with
         | HTTPError _ =>
             raise (RuntimeError (Lit "Failed to download file: " :: str_exn err)
                                 (Some err))
         | _ => raise err
         end) in
  write_chunks output_file (iter_content (1024 * 1024) (snd (fst reply)));;
  match snd reply with
  | Some e => raise e
  | None => print Stdout [Lit "  File downloaded to: "; FmtStr output_path]
  end.

(** ** [main] *)

Definition newline : string := String (Ascii.ascii_of_nat 10) EmptyString.

(** The truth value of what [os.getenv] returns: a string or [None]. *)
Definition env_value (v : option string) : json :=
  match v with
  | Some s => JStr s
  | None => JNull
  end.

(** [main] from the point where [parser.parse_args()] has handed over
    [args.asset_id].  The value is the exit status of the process: 1 from
    [sys.exit(1)], 0 when [main] returns. *)
Definition main (fuel : nat) (asset_id : string) : M Z :=
  let output_path := asset_id ++ ".glb" in
  try_except
    (print Stdout [Lit "Step 1: Getting API token..."];;
     let token := getenv env "MESHCAPADE_API_TOKEN" in
     if negb (truthy (env_value token)) then
       raise (ValueError
                [Lit "MESHCAPADE_API_TOKEN is not set in the environment variables"])
     else
       let token := default "" token in
       print Stdout [Lit "Step 2: Exporting avatar..."];;
       let* download_url := export_avatar env fuel token asset_id in
       print Stdout [Lit "Export completed!"];;
       print Stdout [Lit "Step 3: Downloading avatar..."];;
       download_file download_url output_path;;
       print Stdout [Lit (newline ++ "Success! Avatar downloaded and saved to: ");
                     FmtStr output_path];;
       ret 0%Z)
    (fun e =>
       print Stderr (Lit "Error: " :: str_exn e);;
       ret 1%Z).

(** The script run with the command line [argv]: [parser.parse_args()], at
    the head of [main] and outside its [try], either ends the process with
    its own message and status, or hands over the identifier with which
    the rest of [main] runs. *)
Definition script (fuel : nat) (argv : list string) : M Z :=
  match parse_args env argv with
  | Parsed asset_id => main fuel asset_id
  | ParserExit to message status => print to message;; ret status
  end.

End Download.

(** ** Describing responses *)

(** The value found by following [keys] down nested dictionaries. *)
Fixpoint at_path (v : json) (keys : list string) : option json :=
  match keys with
  | [] => Some v
  | key :: keys' =>
      match v with
      | JObj members =>
          match members !! key with
          | Some v' => at_path v' keys'
          | None => None
          end
      | _ => None
      end
  end.

Definition is_dict (v : json) : bool :=
  match v with
  | JObj _ => true
  | _ => false
  end.

(** No download URL in the response: [url] is absent or empty, or it is a
    dictionary in which [path] is absent or [None]. *)
Definition lacks_url_path (response_json : json) : Prop :=
  at_path response_json ["data"; "attributes"; "url"] = None
  \/ exists url_obj,
       at_path response_json ["data"; "attributes"; "url"] = Some url_obj
       /\ (truthy url_obj = false
           \/ exists members,
                url_obj = JObj members
                /\ (members !! "path" = None
                    \/ members !! "path" = Some JNull)).

(** A POST answered with a status that [raise_for_status] accepts and a
    body that parses to [response_json]. *)
Definition answers (env : environment) (k : nat) (response_json : json) : Prop :=
  exists r, http_post env k = PostResponse r (Done response_json)
            /\ raise_for_status r = Done tt.

(** The result of the requester's k-th call, whoever calls it. *)
Definition requester_returns (env : environment) (k : nat) (v : json) : Prop :=
  forall token asset_id payload w,
    posts w = k ->
    fst (try_get_download_url env token asset_id payload w) = Done v.

(** Pending: no error and nothing the loop takes for a URL. *)
Definition pending (env : environment) (k : nat) : Prop :=
  exists v, truthy v = false /\ requester_returns env k v.

(** The pauses of a trace, in order. *)
Definition naps (t : list event) : list Q :=
  omap (fun e => match e with ESleep secs => Some secs | _ => None end) t.

(** The world after the requester's POST. *)
Definition posted (env : environment) (token asset_id : string) (w : world)
    : world :=
  after_post env (export_url asset_id) (export_headers token) export_payload w.

(** The world after a pending result has been reported and slept on. *)
Definition after_wait (elapsed : Q) (w : world) : world :=
  snd (time_sleep poll_interval
         (log (EPrint Stdout [Lit "Export processing... (elapsed: ";
                              FmtInt (int_of elapsed); Lit "s)"]) w)).

Definition timed_out : exn :=
  TimeoutError [Lit "Export timed out after "; FmtInt 600; Lit " seconds"].

(** The deadline holds at each of the next [n] checks, when the loop is
    about to make call [k] at time [now] and every call is pending. *)
Fixpoint within_deadline (env : environment) (start now : Q) (k n : nat) : Prop :=
  match n with
  | O => True
  | S n' =>
      let t := (now + post_latency env k)%Q in
      (t - start <= inject_Z max_wait)%Q
      /\ within_deadline env start (t + inject_Z poll_interval)%Q (S k) n'
  end.

(** The steps of [download_file] that come before its GET. *)
Definition prepare_output (output_file : path) : M unit :=
  path_mkdir (parent output_file);; open_wb output_file.

(** What the [except] clause of [download_file] raises for [err]. *)
Definition download_error (err : exn) : exn :=
  match err with
  | HTTPError _ =>
      RuntimeError (Lit "Failed to download file: " :: str_exn err) (Some err)
  | _ => err
  end.

(** [w'] is reached from [w] by performing further effects. *)
Definition extends (w w' : world) : Prop :=
  exists rest, trace w' = (trace w ++ rest)%list.

(** A computation that only adds to the trace. *)
Definition grows {A} (c : M A) : Prop := forall w, extends w (snd (c w)).

Fixpoint has_newline (s : string) : bool :=
  match s with
  | EmptyString => false
  | String c s' => Ascii.eqb c (Ascii.ascii_of_nat 10) || has_newline s'
  end.

(** A text that prints on one line.  Dictionaries, lists and paths are
    formatted with their escapes, strings as they are. *)
Definition single_line (t : text) : bool :=
  forallb (fun pc =>
             match pc with
             | Lit s | FmtStr s | FmtValue (JStr s) => negb (has_newline s)
             | _ => true
             end) t.

(** The body cut into chunks of exactly [size] bytes, the last one
    possibly shorter: the fixed-size chunks of the specification.  [cur] is
    the chunk being filled and [room] the number of bytes it can still
    take. *)
Fixpoint chunks_from (size room : N) (cur rest : list Byte.byte)
    : list (list Byte.byte) :=
  match rest with
  | [] => match cur with [] => [] | _ => [cur] end
  | b :: rest' =>
      if (room =? 0)%N then cur :: chunks_from size (size - 1) [b] rest'
      else chunks_from size (room - 1) (cur ++ [b])%list rest'
  end.

Definition fixed_size_chunks (chunk_size : Z) (bytes : list Byte.byte)
    : list (list Byte.byte) :=
  chunks_from (Z.to_N chunk_size) (Z.to_N chunk_size) [] bytes.

(** What a trace writes, in order. *)
Definition writes (t : list event) : list (list Byte.byte) :=
  omap (fun e => match e with EWrite _ chunk => Some chunk | _ => None end) t.

(** ** Sample data *)

Definition sample_response : response :=
  {| status_code := 200; reason := "OK";
     response_url := "https://api.meshcapade.com/api/v1/avatars/abc-123/export" |}.

Definition not_found : response :=
  {| status_code := 404; reason := "Not Found";
     response_url := "https://example/x.glb" |}.

Definition reply_with (attributes : gmap string json) : json :=
  JObj {[ "data" := JObj {[ "attributes" := JObj attributes ]} ]}.

Definition processing_reply : json :=
  reply_with {[ "state" := JStr "PROCESSING" ]}.

Definition ready_reply : json :=
  reply_with {[ "state" := JStr "READY";
                "url" := JObj {[ "path" := JStr "https://example/x.glb" ]} ]}.

Definition ready_without_url : json :=
  reply_with {[ "state" := JStr "READY" ]}.

Definition error_reply : json :=
  reply_with {[ "state" := JStr "ERROR" ]}.

Definition error_with_text_url : json :=
  reply_with {[ "state" := JStr "ERROR"; "url" := JStr "x" ]}.

Definition null_data_reply : json := JObj {[ "data" := JNull ]}.

Definition reply_without_data : json := JObj {[ "errors" := JArr [] ]}.

(** A path string split at its slashes, empty and ["."] parts dropped. *)
Fixpoint split_parts (cur : string) (s : string) : list string :=
  let close := if String.eqb cur "" || String.eqb cur "." then [] else [cur] in
  match s with
  | EmptyString => close
  | String c s' =>
      if Ascii.eqb c (Ascii.ascii_of_nat 47) then (close ++ split_parts "" s')%list
      else split_parts (cur ++ String c EmptyString) s'
  end.

Definition posix_parts (s : string) : path :=
  match s with
  | String c _ =>
      if Ascii.eqb c (Ascii.ascii_of_nat 47) then "/" :: split_parts "" s
      else split_parts "" s
  | EmptyString => []
  end.

Definition sample_bytes : list Byte.byte :=
  [Byte.x67; Byte.x6c; Byte.x54; Byte.x46; Byte.x02; Byte.x00; Byte.x00;
   Byte.x00; Byte.x0a; Byte.x00].

(** The sample body arrives in pieces of 4, 4 and 2 bytes. *)
Definition sample_body : streamed :=
  {| received := sample_bytes; piece_sizes := fun _ => [4; 4; 2]%nat |}.

Definition empty_body : streamed :=
  {| received := []; piece_sizes := fun _ => [] |}.

(** A sample of [argparse] for the parser of the script, which has the one
    positional argument [asset_id] and the option [-h]/[--help]: how it
    answers a command line of one argument, or of [--] and one argument.
    Command lines of any other length are not part of the sample and are
    answered with the usage error. *)
Definition usage : string := "usage: export.py [-h] asset_id".

Definition usage_error (reason : string) : parse_outcome :=
  ParserExit Stderr
    [Lit (usage ++ newline ++ "export.py: error: " ++ reason)] 2.

Definition help : parse_outcome :=
  ParserExit Stdout
    [Lit (usage ++ newline ++ newline
          ++ "Download an avatar from Meshcapade API using avatar ID"
          ++ newline ++ newline ++ "positional arguments:" ++ newline
          ++ "  asset_id    ID of the avatar to download"
          ++ newline ++ newline ++ "options:" ++ newline
          ++ "  -h, --help  show this help message and exit")] 0.

Definition is_char (code : nat) (c : Ascii.ascii) : bool :=
  Ascii.eqb c (Ascii.ascii_of_nat code).

Definition is_digit (c : Ascii.ascii) : bool :=
  (48 <=? Ascii.nat_of_ascii c)%nat && (Ascii.nat_of_ascii c <=? 57)%nat.

Fixpoint all_digits (s : string) : bool :=
  match s with
  | EmptyString => true
  | String c s' => is_digit c && all_digits s'
  end.

(** Digits, or digits (possibly none), a point and at least one digit. *)
Fixpoint number_like (s : string) : bool :=
  match s with
  | EmptyString => false
  | String c s' =>
      if is_char 46 c then negb (String.eqb s' "") && all_digits s'
      else is_digit c && (String.eqb s' "" || number_like s')
  end.

Fixpoint has_char (code : nat) (s : string) : bool :=
  match s with
  | EmptyString => false
  | String c s' => is_char code c || has_char code s'
  end.

(** The part of [s] before its first [=]. *)
Fixpoint before_equals (s : string) : string :=
  match s with
  | EmptyString => EmptyString
  | String c s' => if is_char 61 c then EmptyString else String c (before_equals s')
  end.

(** What [argparse] makes of the single argument [a]. *)
Definition parse_one (a : string) : parse_outcome :=
  let missing := usage_error "the following arguments are required: asset_id" in
  let ignored :=
    usage_error "argument -h/--help: ignored explicit argument" in
  match a with
  | EmptyString => Parsed a
  | String c rest =>
      if negb (is_char 45 c) then Parsed a
      else if String.eqb rest "" then Parsed a
      else if String.eqb a "--" then missing
      else if String.eqb a "-h" || String.eqb a "--help" then help
      else if String.prefix "--" a then
        if String.prefix (before_equals a) "--help" then
          if has_char 61 a then ignored else help
        else if has_char 32 a then Parsed a
        else missing
      else if String.prefix "-h" a then ignored
      else if number_like rest then Parsed a
      else if has_char 32 a then Parsed a
      else missing
  end.

Definition sample_parse_args (argv : list string) : parse_outcome :=
  match argv with
  | [] => usage_error "the following arguments are required: asset_id"
  | [a] => parse_one a
  | [dashes; a] =>
      if String.eqb dashes "--" then Parsed a
      else usage_error "unrecognized arguments"
  | _ => usage_error "unrecognized arguments"
  end.

(** An environment whose k-th POST is answered with [replies k]. *)
Definition scripted (token : option string) (replies : nat -> json)
    (download : get_outcome) : environment :=
  {| parse_args := sample_parse_args;
     getenv := fun name =>
       if String.eqb name "MESHCAPADE_API_TOKEN" then token else None;
     http_post := fun k => PostResponse sample_response (Done (replies k));
     post_latency := fun _ => 0%Q;
     http_get := fun _ => download;
     path_parts := posix_parts |}.

Definition good_download : get_outcome :=
  GetResponse sample_response sample_body None.

(** Pending on the first [n] calls, ready from then on. *)
Definition ready_after (n : nat) : environment :=
  scripted (Some "secret")
    (fun k => if (k <? n)%nat then processing_reply else ready_reply)
    good_download.

Definition never_ready : environment :=
  scripted (Some "secret") (fun _ => processing_reply) good_download.

Definition answering (response_json : json) : environment :=
  scripted (Some "secret") (fun _ => response_json) good_download.

Definition fresh : world :=
  {| clock := 0; posts := 0; files := ∅; trace := [] |}.

(** A world in which an earlier download left a file behind. *)
Definition used : world :=
  {| clock := 0; posts := 0;
     files := {[ ["abc-123.glb"] := File [Byte.x01; Byte.x02] ]};
     trace := [] |}.

(** The polling property as the specification words it: after [n] pending
    results and a URL on the next call, some run of the loop returns the
    URL having paused exactly [n] times for the poll interval. *)
Definition returns_after_pauses (env : environment) (n : nat) (url : string)
    (token asset_id : string) (w : world) : Prop :=
  exists fuel w',
    export_avatar env fuel token asset_id w = (Done (JStr url), w')
    /\ naps (trace w')
       = (naps (trace w) ++ repeat (inject_Z poll_interval) n)%list.

(** An environment whose download is answered with 404. *)
Definition gone : environment :=
  scripted (Some "secret") (fun _ => ready_reply)
    (GetResponse not_found empty_body None).

Definition without_token : environment :=
  scripted None (fun _ => ready_reply) good_download.

Definition token_error : text :=
  [Lit "Error: ";
   Lit "MESHCAPADE_API_TOKEN is not set in the environment variables"].

(** Validation for non-emptiness as the specification words it: an empty
    identifier is turned away, that is, the run ends with a nonzero status
    and sends no request. *)
Definition rejects_empty_asset_id (env : environment) (fuel : nat) (w : world)
    : Prop :=
  exists status w',
    main env fuel "" w = (Done status, w')
    /\ status <> 0%Z
    /\ posts w' = posts w.

(** ** Further descriptions of responses and runs *)

(** The [url] member is one the requester can read: absent, empty, or a
    dictionary. *)
Definition url_readable (response_json : json) : Prop :=
  at_path response_json ["data"; "attributes"; "url"] = None
  \/ exists url_obj,
       at_path response_json ["data"; "attributes"; "url"] = Some url_obj
       /\ (truthy url_obj = false \/ is_dict url_obj = true).

(** The requester's k-th call raises [e], whoever calls it. *)
Definition requester_raises (env : environment) (k : nat) (e : exn) : Prop :=
  forall token asset_id payload w,
    posts w = k ->
    fst (try_get_download_url env token asset_id payload w) = Raise e.

(** The effects [export_avatar] may have: its request, a line on standard
    output, a pause of the poll interval. *)
Definition poll_event (token asset_id : string) (e : event) : Prop :=
  match e with
  | EPost url headers payload =>
      url = export_url asset_id /\ headers = export_headers token
      /\ payload = export_payload
  | EPrint Stdout _ => True
  | ESleep secs => secs = inject_Z poll_interval
  | _ => False
  end.

Definition server_error : response :=
  {| status_code := 503; reason := "Service Unavailable";
     response_url := "https://api.meshcapade.com/api/v1/avatars/abc-123/export" |}.

Definition connection_refused : exn :=
  RequestException "ConnectionError" [Lit "Connection refused"].

(** An environment whose POSTs are all answered with [outcome]. *)
Definition posting (outcome : post_outcome) (download : get_outcome)
    : environment :=
  {| parse_args := sample_parse_args;
     getenv := fun name =>
       if String.eqb name "MESHCAPADE_API_TOKEN" then Some "secret" else None;
     http_post := fun _ => outcome;
     post_latency := fun _ => 0%Q;
     http_get := fun _ => download;
     path_parts := posix_parts |}.

(** Pending on the first [n] calls, then a connection that is refused. *)
Definition refused_after (n : nat) : environment :=
  {| parse_args := sample_parse_args;
     getenv := fun name =>
       if String.eqb name "MESHCAPADE_API_TOKEN" then Some "secret" else None;
     http_post := fun k =>
       if (k <? n)%nat then PostResponse sample_response (Done processing_reply)
       else PostFailed connection_refused;
     post_latency := fun _ => 0%Q;
     http_get := fun _ => good_download;
     path_parts := posix_parts |}.

(** An environment whose download breaks off after the sample bytes. *)
Definition interrupted : environment :=
  scripted (Some "secret") (fun _ => ready_reply)
    (GetResponse sample_response sample_body (Some connection_refused)).

Definition unreachable : environment :=
  scripted (Some "secret") (fun _ => ready_reply) (GetFailed connection_refused).

(** A world in which [exports] is a file, and one in which [abc-123.glb]
    is a directory. *)
Definition file_in_the_way : world :=
  {| clock := 0; posts := 0;
     files := {[ ["exports"] := File [Byte.x01] ]};
     trace := [] |}.

Definition directory_in_place : world :=
  {| clock := 0; posts := 0;
     files := {[ ["abc-123.glb"] := Dir ]};
     trace := [] |}.

(** The world in which [main] starts the export, and the one in which it
    starts the download after an export that ended in [w]. *)
Definition exporting (w : world) : world :=
  log (EPrint Stdout [Lit "Step 2: Exporting avatar..."])
    (log (EPrint Stdout [Lit "Step 1: Getting API token..."]) w).

Definition downloading (w : world) : world :=
  log (EPrint Stdout [Lit "Step 3: Downloading avatar..."])
    (log (EPrint Stdout [Lit "Export completed!"]) w).

(** What [main] prints for an exception, and when all went well. *)
Definition error_line (e : exn) : event :=
  EPrint Stderr (Lit "Error: " :: str_exn e).

Definition success_line (asset_id : string) : event :=
  EPrint Stdout [Lit (newline ++ "Success! Avatar downloaded and saved to: ");
                 FmtStr (asset_id ++ ".glb")].

(** * Properties *)

(** ** One call of the requester *)

Section RequesterFacts.

Context (env : environment).

Lemma at_path_cons v key keys x :
  at_path v (key :: keys) = Some x ->
  exists members v', v = JObj members /\ members !! key = Some v'
                     /\ at_path v' keys = Some x.
Proof.
  destruct v; simpl; try discriminate.
  destruct (members !! key) as [v'|] eqn:E; [|discriminate].
  intros H. exists members, v'. auto.
Qed.

(** Whatever the reply, the requester's only effect is its POST. *)
Lemma try_get_download_url_world token asset_id payload w :
  snd (try_get_download_url env token asset_id payload w)
  = after_post env (export_url asset_id) (export_headers token) payload w.
Proof.
  unfold try_get_download_url, bind, requests_post, lift.
  destruct (http_post env (posts w)) as [e | r body]; [reflexivity|].
  simpl. destruct (raise_for_status r); [|reflexivity..].
  destruct body as [response_json| |]; [|reflexivity..].
  destruct (read_export response_json); reflexivity.
Qed.

Lemma try_get_download_url_answered token asset_id payload w response_json :
  answers env (posts w) response_json ->
  try_get_download_url env token asset_id payload w
  = (read_export response_json,
     after_post env (export_url asset_id) (export_headers token) payload w).
Proof.
  intros (r & Hpost & Hstatus).
  unfold try_get_download_url, bind, requests_post, lift.
  rewrite Hpost. simpl. rewrite Hstatus.
  destruct (read_export response_json); reflexivity.
Qed.

Lemma read_export_ready response_json url :
  at_path response_json ["data"; "attributes"; "state"] = Some (JStr "READY") ->
  at_path response_json ["data"; "attributes"; "url"; "path"] = Some url ->
  read_export response_json = Done url.
Proof.
  intros Hs Hu.
  apply at_path_cons in Hs as (top & data & -> & Hdata & Hs).
  apply at_path_cons in Hs as (dm & attrs & -> & Hattrs & Hs).
  apply at_path_cons in Hs as (am & st & -> & Hstate & Hs).
  simpl in Hs. injection Hs as ->.
  simpl in Hu. rewrite Hdata, Hattrs in Hu.
  destruct (am !! "url") as [uo|] eqn:Hurl; [|discriminate].
  destruct uo as [| | | | | |um]; try discriminate.
  destruct (um !! "path") as [p|] eqn:Hpath; [|discriminate].
  injection Hu as ->.
  unfold read_export. simpl. rewrite Hdata. simpl. rewrite Hattrs. simpl.
  rewrite (bool_decide_eq_false_2 (am = ∅)).
  2:{ intros ->. rewrite lookup_empty in Hstate. discriminate. }
  simpl. rewrite Hstate, Hurl. simpl.
  rewrite (bool_decide_eq_false_2 (um = ∅)).
  2:{ intros ->. rewrite lookup_empty in Hpath. discriminate. }
  simpl. rewrite Hpath. reflexivity.
Qed.

End RequesterFacts.

(** ** Iterations of the poll loop *)

Section PollFacts.

Context (env : environment).

Lemma poll_loop_unfold fuel token asset_id start v0 :
  poll_loop env (S fuel) token asset_id start v0
  = if negb (truthy v0) then
      let* download_url :=
        try_get_download_url env token asset_id export_payload in
      if truthy download_url then ret download_url
      else
        let* now := time_time in
        let elapsed := (now - start)%Q in
        if negb (Qle_bool elapsed (inject_Z max_wait)) then raise timed_out
        else
          print Stdout [Lit "Export processing... (elapsed: ";
                        FmtInt (int_of elapsed); Lit "s)"];;
          time_sleep poll_interval;;
          poll_loop env fuel token asset_id start download_url
    else ret v0.
Proof. reflexivity. Qed.

Lemma requester_pair token asset_id payload w v :
  fst (try_get_download_url env token asset_id payload w) = Done v ->
  try_get_download_url env token asset_id payload w
  = (Done v, after_post env (export_url asset_id) (export_headers token) payload w).
Proof.
  intros H. rewrite <- try_get_download_url_world, <- H.
  destruct (try_get_download_url env token asset_id payload w); reflexivity.
Qed.


(** One iteration on a result the loop takes for a URL. *)
Lemma poll_loop_ready fuel token asset_id start v0 w v :
  truthy v0 = false ->
  fst (try_get_download_url env token asset_id export_payload w) = Done v ->
  truthy v = true ->
  poll_loop env (S fuel) token asset_id start v0 w
  = (Done v, posted env token asset_id w).
Proof.
  intros H0 Hreq Hv. rewrite poll_loop_unfold, H0. change (negb false) with true.
  cbv iota. unfold bind at 1. cbv beta. rewrite (requester_pair _ _ _ _ _ Hreq), Hv. reflexivity.
Qed.

(** One iteration on a pending result: the deadline is checked, and only
    when it has not passed does the loop report, sleep and go on. *)
Lemma poll_loop_pending fuel token asset_id start v0 w v :
  truthy v0 = false ->
  fst (try_get_download_url env token asset_id export_payload w) = Done v ->
  truthy v = false ->
  poll_loop env (S fuel) token asset_id start v0 w
  = let w1 := posted env token asset_id w in
    let elapsed := (clock w1 - start)%Q in
    if negb (Qle_bool elapsed (inject_Z max_wait)) then (Raise timed_out, w1)
    else poll_loop env fuel token asset_id start v (after_wait elapsed w1).
Proof.
  intros H0 Hreq Hv. rewrite poll_loop_unfold, H0. change (negb false) with true.
  cbv iota. unfold bind at 1. cbv beta. rewrite (requester_pair _ _ _ _ _ Hreq), Hv.
  cbv zeta. unfold bind at 1, time_time at 1. cbv beta iota.
  destruct (negb (Qle_bool _ _)); reflexivity.
Qed.

Lemma naps_app t1 t2 : naps (t1 ++ t2) = (naps t1 ++ naps t2)%list.
Proof. apply omap_app. Qed.

Lemma naps_after_wait elapsed w :
  naps (trace (after_wait elapsed w))
  = (naps (trace w) ++ [inject_Z poll_interval])%list.
Proof. unfold after_wait. simpl. rewrite !naps_app, <- app_assoc. reflexivity. Qed.

Lemma naps_posted token asset_id w :
  naps (trace (posted env token asset_id w)) = naps (trace w).
Proof. simpl. rewrite naps_app. simpl. apply app_nil_r. Qed.

Lemma over_deadline (elapsed : Q) :
  negb (Qle_bool elapsed (inject_Z max_wait)) = true <-> (600 < elapsed)%Q.
Proof.
  rewrite negb_true_iff, <- not_true_iff_false, Qle_bool_iff.
  change (inject_Z max_wait) with 600%Q. split; intros H.
  - apply Qnot_le_lt, H.
  - apply Qlt_not_le, H.
Qed.

(** More fuel never changes the result of a run that came to an end. *)
Lemma poll_loop_fuel fuel : forall token asset_id start v0 w r w' fuel',
  poll_loop env fuel token asset_id start v0 w = (r, w') ->
  r <> OutOfFuel ->
  (fuel <= fuel')%nat ->
  poll_loop env fuel' token asset_id start v0 w = (r, w').
Proof.
  induction fuel as [|fuel IH]; intros token asset_id start v0 w r w' fuel' Hrun Hr Hle.
  - simpl in Hrun. destruct (truthy v0) eqn:Hv0; simpl in Hrun.
    + destruct fuel'; simpl; rewrite Hv0; exact Hrun.
    + unfold lift in Hrun. injection Hrun as <- _. congruence.
  - destruct fuel' as [|fuel']; [lia|].
    rewrite poll_loop_unfold in Hrun |- *.
    destruct (negb (truthy v0)); [|exact Hrun].
    unfold bind at 1 in Hrun. unfold bind at 1. cbv beta in Hrun |- *.
    destruct (try_get_download_url env token asset_id export_payload w)
      as [[v| |] w1]; try exact Hrun.
    destruct (truthy v); [exact Hrun|].
    unfold bind at 1, time_time at 1 in Hrun. unfold bind at 1, time_time at 1.
    cbv beta iota in Hrun |- *.
    destruct (negb (Qle_bool _ _)); [exact Hrun|].
    unfold bind at 1, print at 1 in Hrun. unfold bind at 1, print at 1.
    cbv beta iota in Hrun |- *.
    unfold bind at 1, time_sleep at 1 in Hrun. unfold bind at 1, time_sleep at 1.
    cbv beta iota in Hrun |- *.
    apply IH; [exact Hrun | exact Hr | lia].
Qed.

(** With every call pending and time moving forward, an iteration that
    starts within [5 * n] seconds of the deadline leads to the timeout
    after at most [n] pauses. *)
Lemma poll_loop_times_out token asset_id start :
  (forall k, pending env k) ->
  (forall k, (0 <= post_latency env k)%Q) ->
  forall n v0 w fuel,
    truthy v0 = false ->
    (start + 600 < clock w + 5 * inject_Z (Z.of_nat n))%Q ->
    (n < fuel)%nat ->
    exists w' pauses,
      poll_loop env fuel token asset_id start v0 w = (Raise timed_out, w')
      /\ (pauses <= n)%nat
      /\ naps (trace w')
         = (naps (trace w) ++ repeat (inject_Z poll_interval) pauses)%list
      /\ posts w' = (posts w + S pauses)%nat
      /\ (600 < clock w' - start)%Q.
Proof.
  intros Hpending Hlat.
  induction n as [|n IH]; intros v0 w fuel Hv0 Hnear Hfuel;
    (destruct fuel as [|fuel]; [lia|]);
    destruct (Hpending (posts w)) as (v & Hv & Hret);
    specialize (Hret token asset_id export_payload w eq_refl);
    rewrite (poll_loop_pending _ _ _ _ _ _ _ Hv0 Hret Hv); cbv zeta;
    pose proof (Hlat (posts w)) as Hl;
    set (w1 := posted env token asset_id w);
    assert (Hc1 : clock w1 = (clock w + post_latency env (posts w))%Q) by reflexivity;
    destruct (negb (Qle_bool (clock w1 - start) (inject_Z max_wait))) eqn:Hover.
  - exists w1, 0%nat. apply over_deadline in Hover.
    repeat split; [lia | | simpl; lia | exact Hover].
    simpl repeat. rewrite app_nil_r. apply naps_posted.
  - apply not_true_iff_false in Hover. exfalso. apply Hover, over_deadline.
    rewrite Hc1. change (inject_Z (Z.of_nat 0)) with 0%Q in Hnear. lra.
  - exists w1, 0%nat. apply over_deadline in Hover.
    repeat split; [lia | | simpl; lia | exact Hover].
    simpl repeat. rewrite app_nil_r. apply naps_posted.
  - destruct (IH v (after_wait (clock w1 - start) w1) fuel Hv) as (w' & pauses & Hrun & Hp & Hn & Hposts & Hclock).
    + change (clock (after_wait (clock w1 - start) w1))
        with (clock w1 + inject_Z poll_interval)%Q.
      rewrite Hc1. change (inject_Z poll_interval) with 5%Q.
      rewrite Nat2Z.inj_succ in Hnear. unfold Z.succ in Hnear.
      rewrite inject_Z_plus in Hnear. change (inject_Z 1) with 1%Q in Hnear. lra.
    + lia.
    + exists w', (S pauses). rewrite Hrun. repeat split; [lia | | | exact Hclock].
      * rewrite Hn, naps_after_wait. unfold w1.
        rewrite naps_posted, <- app_assoc. reflexivity.
      * rewrite Hposts. simpl. lia.
Qed.

(** [n] pending results within the deadline, then a URL: the loop pauses
    [n] times and returns the URL. *)
Lemma poll_loop_returns token asset_id start url :
  truthy url = true ->
  forall n v0 w fuel,
    truthy v0 = false ->
    (forall k, (k < n)%nat -> pending env (posts w + k)) ->
    requester_returns env (posts w + n) url ->
    within_deadline env start (clock w) (posts w) n ->
    (n < fuel)%nat ->
    exists w',
      poll_loop env fuel token asset_id start v0 w = (Done url, w')
      /\ naps (trace w')
         = (naps (trace w) ++ repeat (inject_Z poll_interval) n)%list
      /\ posts w' = (posts w + S n)%nat.
Proof.
  intros Hurl.
  induction n as [|n IH]; intros v0 w fuel Hv0 Hpending Hready Hdead Hfuel;
    (destruct fuel as [|fuel]; [lia|]).
  - rewrite Nat.add_0_r in Hready.
    specialize (Hready token asset_id export_payload w eq_refl).
    rewrite (poll_loop_ready _ _ _ _ _ _ _ Hv0 Hready Hurl).
    eexists. repeat split; [|simpl; lia].
    simpl repeat. rewrite app_nil_r. apply naps_posted.
  - destruct (Hpending 0%nat ltac:(lia)) as (v & Hv & Hret).
    rewrite Nat.add_0_r in Hret.
    specialize (Hret token asset_id export_payload w eq_refl).
    rewrite (poll_loop_pending _ _ _ _ _ _ _ Hv0 Hret Hv). cbv zeta.
    destruct Hdead as [Hnow Hdead].
    assert (Hover : negb (Qle_bool (clock (posted env token asset_id w) - start)
                            (inject_Z max_wait)) = false).
    { apply negb_false_iff, Qle_bool_iff. exact Hnow. }
    rewrite Hover.
    destruct (IH v (after_wait (clock (posted env token asset_id w) - start)
                      (posted env token asset_id w)) fuel Hv)
      as (w' & Hrun & Hn & Hposts).
    + intros k Hk. replace (posts _ + k)%nat with (posts w + S k)%nat
        by (simpl; lia). apply Hpending. lia.
    + replace (posts _ + n)%nat with (posts w + S n)%nat by (simpl; lia).
      exact Hready.
    + exact Hdead.
    + lia.
    + exists w'. rewrite Hrun. repeat split.
      * rewrite Hn, naps_after_wait, naps_posted, <- app_assoc. reflexivity.
      * rewrite Hposts. simpl. lia.
Qed.

End PollFacts.

(** ** Chunks, directories and the steps of a download *)

Lemma pieces_concat sizes : forall bytes,
  concat (pieces sizes bytes) = bytes.
Proof.
  induction sizes as [|size sizes IH]; intros [|b bytes]; try reflexivity.
  - simpl. rewrite app_nil_r. reflexivity.
  - change (concat (take size (b :: bytes)
                    :: pieces sizes (drop size (b :: bytes)))
            = b :: bytes).
    simpl concat. rewrite IH. apply take_drop.
Qed.

(** The pieces, put together in order, are the body. *)
Lemma iter_content_concat n content :
  concat (iter_content n content) = received content.
Proof. unfold iter_content. apply pieces_concat. Qed.

Lemma base_is_dir fs p : is_base p = true -> lookup_node fs p = Some Dir.
Proof. unfold lookup_node. intros ->. reflexivity. Qed.

Lemma lookup_node_insert_absent fs p q n :
  lookup_node fs p = None ->
  lookup_node fs q = Some n ->
  lookup_node (<[p := Dir]> fs) q = Some n.
Proof.
  unfold lookup_node. destruct (is_base p); [discriminate|].
  destruct (is_base q); [auto|]. intros Hp Hq.
  rewrite lookup_insert_ne; [exact Hq|]. intros ->. congruence.
Qed.

Lemma lookup_node_insert_same fs p :
  lookup_node (<[p := Dir]> fs) p = Some Dir.
Proof.
  unfold lookup_node. destruct (is_base p); [reflexivity|].
  apply lookup_insert_eq.
Qed.

(** [makedirs] never touches what is already there. *)
Lemma makedirs_keeps below : forall above fs r fs' q n,
  makedirs above below fs = (r, fs') ->
  lookup_node fs q = Some n ->
  lookup_node fs' q = Some n.
Proof.
  induction below as [|name rest IH]; intros above fs r fs' q n Hrun Hq; simpl in Hrun.
  - injection Hrun as _ <-. exact Hq.
  - destruct (lookup_node fs (above ++ [name])) as [[|content]|] eqn:E.
    + eapply IH; eauto.
    + injection Hrun as _ <-. exact Hq.
    + eapply IH; [exact Hrun|]. apply lookup_node_insert_absent; assumption.
Qed.

(** After a successful [makedirs] every directory on the way exists. *)
Lemma makedirs_made below : forall above fs fs' k,
  makedirs above below fs = (Done tt, fs') ->
  (0 < k <= length below)%nat ->
  lookup_node fs' (above ++ take k below) = Some Dir.
Proof.
  induction below as [|name rest IH]; intros above fs fs' k Hrun Hk; simpl in Hrun, Hk.
  - lia.
  - destruct k as [|k]; [lia|]. simpl take.
    replace (above ++ name :: take k rest)%list
      with ((above ++ [name]) ++ take k rest)%list
      by (rewrite <- app_assoc; reflexivity).
    destruct (lookup_node fs (above ++ [name])) as [[|content]|] eqn:E;
      [| discriminate |].
    + destruct k as [|k].
      * rewrite take_0, app_nil_r. eapply makedirs_keeps; eauto.
      * eapply IH; [exact Hrun | lia].
    + destruct k as [|k].
      * rewrite take_0, app_nil_r. eapply makedirs_keeps; [exact Hrun|].
        apply lookup_node_insert_same.
      * eapply IH; [exact Hrun | lia].
Qed.

Lemma makedirs_all p fs fs' k :
  makedirs [] p fs = (Done tt, fs') ->
  (k <= length p)%nat ->
  lookup_node fs' (take k p) = Some Dir.
Proof.
  intros Hrun Hk. destruct k as [|k].
  - rewrite take_0. reflexivity.
  - apply (makedirs_made p [] fs fs' (S k) Hrun). lia.
Qed.

Lemma result_eq_done (r : result unit) : r = Done tt \/ r <> Done tt.
Proof. destruct r as [[]| |]; [left; reflexivity | right; discriminate..]. Qed.

(** A status from 400 to 599 makes [raise_for_status] raise. *)
Lemma status_rejected r :
  (400 <= status_code r < 600)%Z -> exists e, raise_for_status r = Raise e.
Proof.
  intros H. unfold raise_for_status.
  destruct ((400 <=? status_code r)%Z && (status_code r <? 500)%Z) eqn:E1;
    [eexists; reflexivity|].
  destruct ((500 <=? status_code r)%Z && (status_code r <? 600)%Z) eqn:E2;
    [eexists; reflexivity|].
  apply andb_false_iff in E1, E2. lia.
Qed.

Section DownloadFacts.

Context (env : environment).

Lemma write_chunks_spec p chunks : forall w c0,
  files w !! p = Some (File c0) ->
  exists w',
    write_chunks p chunks w = (Done tt, w')
    /\ files w' !! p = Some (File (c0 ++ concat chunks))
    /\ trace w' = (trace w ++ map (EWrite p) chunks)%list
    /\ forall q, q <> p -> files w' !! q = files w !! q.
Proof.
  induction chunks as [|chunk chunks IH]; intros w c0 Hp; simpl.
  - exists w. rewrite !app_nil_r. auto.
  - unfold bind, file_write. cbv beta iota.
    set (w1 := log (EWrite p chunk) _).
    destruct (IH w1 (c0 ++ chunk)%list) as (w' & Hrun & Hfile & Htrace & Hother).
    { simpl. rewrite lookup_alter_eq, Hp. reflexivity. }
    exists w'. split; [exact Hrun|]. split; [|split].
    + rewrite Hfile, <- app_assoc. reflexivity.
    + rewrite Htrace. simpl. rewrite <- app_assoc. reflexivity.
    + intros q Hq. rewrite (Hother q Hq). simpl. apply lookup_alter_ne. congruence.
Qed.

Lemma prepare_output_done p w w1 :
  prepare_output p w = (Done tt, w1) ->
  is_base p = false
  /\ files w1 !! p = Some (File [])
  /\ trace w1 = (trace w ++ [EMkdir (parent p); EOpen p])%list
  /\ (forall k, (k <= length (parent p))%nat ->
        lookup_node (files w1) (take k (parent p)) = Some Dir)
  /\ posts w1 = posts w.
Proof.
  unfold prepare_output, bind, path_mkdir, open_wb. cbv beta.
  destruct (makedirs [] (parent p) (files w)) as [r fs] eqn:Hmk.
  destruct r as [[]| |]; [|discriminate..]. cbv iota beta.
  simpl files. simpl trace.
  destruct (is_base p) eqn:Hbase.
  { rewrite (base_is_dir fs p Hbase). discriminate. }
  assert (Hparent : lookup_node fs (parent p) = Some Dir).
  { rewrite <- (firstn_all (parent p)) at 1. eapply makedirs_all; eauto. }
  rewrite Hparent.
  intros Hrun.
  assert (w1 = set_files (<[p := File []]> fs)
                 (log (EOpen p) (log (EMkdir (parent p)) (set_files fs w)))) as ->.
  { destruct (lookup_node fs p) as [[|c]|]; congruence. }
  simpl. rewrite lookup_insert_eq, <- app_assoc.
  split; [reflexivity|]. split; [reflexivity|]. split; [reflexivity|].
  split; [|reflexivity].
  intros k Hk. unfold lookup_node.
  destruct (is_base (take k (parent p))) eqn:Hb; [reflexivity|].
  rewrite lookup_insert_ne.
  - pose proof (makedirs_all _ _ _ k Hmk Hk) as H. unfold lookup_node in H.
    rewrite Hb in H. exact H.
  - intros Heq. apply (f_equal length) in Heq. rewrite length_take in Heq.
    unfold parent in Hk, Heq. rewrite Hbase in Hk, Heq.
    destruct p as [|a p]; [discriminate|].
    rewrite removelast_firstn_len, length_take in Hk. rewrite removelast_firstn_len, length_take in Heq.
    simpl in Hk, Heq. lia.
Qed.

Lemma download_file_unprepared url out w r w1 :
  prepare_output (path_parts env out) w = (r, w1) ->
  r <> Done tt ->
  fst (download_file env url out w) = r.
Proof.
  unfold prepare_output, download_file, bind. cbv beta zeta.
  destruct (path_mkdir (parent (path_parts env out)) w) as [[[]| |] w0].
  - destruct (open_wb (path_parts env out) w0) as [[[]| |] w2];
      intros [= <- <-]; [congruence | reflexivity..].
  - intros [= <- <-]. reflexivity.
  - intros [= <- <-]. reflexivity.
Qed.

(** Once the output file is open, the outcome is decided by the GET. *)
Lemma download_file_prepared url out w w1 :
  prepare_output (path_parts env out) w = (Done tt, w1) ->
  download_file env url out w
  = let p := path_parts env out in
    let w2 := log (EGet url 60) w1 in
    match http_get env url with
    | GetFailed e => (Raise (download_error e), w2)
    | GetResponse r content broken =>
        match raise_for_status r with
        | Done _ =>
            let w3 := snd (write_chunks p (iter_content (1024 * 1024) content) w2) in
            match broken with
            | Some e => (Raise e, w3)
            | None =>
                (Done tt,
                 log (EPrint Stdout [Lit "  File downloaded to: "; FmtStr out]) w3)
            end
        | Raise e => (Raise (download_error e), w2)
        | OutOfFuel => (OutOfFuel, w2)
        end
    end.
Proof.
  intros Hprep. pose proof (prepare_output_done _ _ _ Hprep) as (_ & Hfile & _).
  revert Hprep.
  unfold prepare_output, download_file, bind. cbv beta zeta.
  destruct (path_mkdir (parent (path_parts env out)) w) as [[[]| |] w0];
    [|discriminate..].
  destruct (open_wb (path_parts env out) w0) as [[[]| |] w2];
    [|discriminate..].
  intros [= ->].
  unfold try_except, bind, requests_get, lift. cbv beta.
  destruct (http_get env url) as [e | r content broken].
  - destruct e; reflexivity.
  - cbv iota beta. simpl fst. simpl snd.
    destruct (raise_for_status r) as [[]|e|].
    + cbv iota beta.
      destruct (write_chunks_spec (path_parts env out)
                  (iter_content (1024 * 1024) content)
                  (log (EGet url 60) w1) [] Hfile) as (w3 & Hrun & _).
      unfold ret. cbv iota beta. simpl snd. simpl fst. rewrite Hrun. simpl snd.
      destruct broken; reflexivity.
    + destruct e; reflexivity.
    + reflexivity.
Qed.

End DownloadFacts.

(** ** Effects only accumulate *)

Lemma extends_refl w : extends w w.
Proof. exists []. symmetry. apply app_nil_r. Qed.

Lemma extends_trans w1 w2 w3 : extends w1 w2 -> extends w2 w3 -> extends w1 w3.
Proof.
  intros [r1 H1] [r2 H2]. exists (r1 ++ r2)%list.
  rewrite H2, H1, app_assoc. reflexivity.
Qed.

Lemma extends_log e w : extends w (log e w).
Proof. exists [e]. reflexivity. Qed.

Lemma grows_ret {A} (a : A) : grows (ret a).
Proof. intros w. apply extends_refl. Qed.

Lemma grows_raise {A} e : grows (@raise A e).
Proof. intros w. apply extends_refl. Qed.

Lemma grows_lift {A} (r : result A) : grows (lift r).
Proof. intros w. apply extends_refl. Qed.

Lemma grows_bind {A B} (c : M A) (k : A -> M B) :
  grows c -> (forall a, grows (k a)) -> grows (bind c k).
Proof.
  intros Hc Hk w. unfold bind. specialize (Hc w).
  destruct (c w) as [[a|e|] w1]; simpl in *; [|exact Hc..].
  eapply extends_trans; [exact Hc | apply Hk].
Qed.

Lemma grows_try_except {A} (c : M A) handler :
  grows c -> (forall e, grows (handler e)) -> grows (try_except c handler).
Proof.
  intros Hc Hh w. unfold try_except. specialize (Hc w).
  destruct (c w) as [[a|e|] w1]; simpl in *; [exact Hc| |exact Hc].
  eapply extends_trans; [exact Hc | apply Hh].
Qed.

Lemma grows_print to line : grows (print to line).
Proof. intros w. apply extends_log. Qed.

Lemma grows_time_time : grows time_time.
Proof. intros w. apply extends_refl. Qed.

Lemma grows_time_sleep secs : grows (time_sleep secs).
Proof. intros w. exists [ESleep (inject_Z secs)]. reflexivity. Qed.

Create HintDb grows.

#[local] Hint Resolve grows_ret grows_raise grows_lift grows_print
  grows_time_time grows_time_sleep : grows.

Ltac grows_step :=
  first [ apply grows_bind; [|intros ?]
        | apply grows_try_except; [|intros ?]
        | solve [auto with grows] ].

Section GrowthFacts.

Context (env : environment).

Lemma grows_try_get_download_url token asset_id payload :
  grows (try_get_download_url env token asset_id payload).
Proof.
  intros w. rewrite try_get_download_url_world.
  eexists. reflexivity.
Qed.

Lemma grows_poll_loop fuel : forall token asset_id start v0,
  grows (poll_loop env fuel token asset_id start v0).
Proof.
  induction fuel as [|fuel IH]; intros token asset_id start v0.
  - simpl. destruct (negb (truthy v0)); auto with grows.
  - rewrite poll_loop_unfold. destruct (negb (truthy v0)); [|auto with grows].
    apply grows_bind; [apply grows_try_get_download_url|]. intros v.
    destruct (truthy v); [auto with grows|].
    apply grows_bind; [auto with grows|]. intros now. cbv zeta.
    destruct (negb (Qle_bool _ _)); [apply grows_raise|].
    repeat grows_step.
Qed.

(** An iteration of the loop starts with a request. *)
Lemma poll_loop_posts_first fuel token asset_id start v0 w :
  truthy v0 = false ->
  extends (posted env token asset_id w)
          (snd (poll_loop env (S fuel) token asset_id start v0 w)).
Proof.
  intros Hv0. rewrite poll_loop_unfold, Hv0. change (negb false) with true.
  cbv iota. unfold bind at 1. cbv beta.
  pose proof (try_get_download_url_world env token asset_id export_payload w) as Hw.
  destruct (try_get_download_url env token asset_id export_payload w)
    as [[v|e|] w1]; simpl in Hw; subst w1; try apply extends_refl.
  destruct (truthy v); [apply extends_refl|].
  unfold posted.
  generalize (after_post env (export_url asset_id) (export_headers token)
                export_payload w). intros w1.
  revert w1. change (grows (let* now := time_time in
    let elapsed := (now - start)%Q in
    if negb (Qle_bool elapsed (inject_Z max_wait)) then raise timed_out
    else
      print Stdout [Lit "Export processing... (elapsed: ";
                    FmtInt (int_of elapsed); Lit "s)"];;
      time_sleep poll_interval;;
      poll_loop env fuel token asset_id start v)).
  apply grows_bind; [auto with grows|]. intros now. cbv zeta.
  destruct (negb (Qle_bool _ _)); [apply grows_raise|].
  repeat grows_step. apply grows_poll_loop.
Qed.

End GrowthFacts.

(** ** The requester on READY, ERROR and malformed responses *)

Section RequesterClaims.

Context (env : environment).

Lemma read_export_error response_json :
  at_path response_json ["data"; "attributes"; "state"] = Some (JStr "ERROR") ->
  (at_path response_json ["data"; "attributes"; "url"] = None
   \/ exists url_obj,
        at_path response_json ["data"; "attributes"; "url"] = Some url_obj
        /\ (truthy url_obj = false \/ is_dict url_obj = true)) ->
  read_export response_json
  = Raise (RuntimeError [Lit "Export finished with ERROR state: ";
                         FmtValue response_json] None).
Proof.
  intros Hs Hu.
  apply at_path_cons in Hs as (top & data & -> & Hdata & Hs).
  apply at_path_cons in Hs as (dm & attrs & -> & Hattrs & Hs).
  apply at_path_cons in Hs as (am & st & -> & Hstate & Hs).
  simpl in Hs. injection Hs as ->.
  simpl in Hu. rewrite Hdata, Hattrs in Hu.
  unfold read_export. simpl. rewrite Hdata. simpl. rewrite Hattrs. simpl.
  rewrite (bool_decide_eq_false_2 (am = ∅)).
  2:{ intros ->. rewrite lookup_empty in Hstate. discriminate. }
  simpl. rewrite Hstate.
  destruct (am !! "url") as [uo|] eqn:Hurl; simpl.
  - destruct Hu as [Hu | (uo' & [= <-] & [Hfalse | Hdict])]; [discriminate| |].
    + rewrite Hfalse. reflexivity.
    + destruct uo; try discriminate. simpl.
      destruct (negb (bool_decide (members = ∅))); reflexivity.
  - rewrite bool_decide_eq_true_2 by reflexivity. reflexivity.
Qed.

Lemma read_export_empty response_json :
  is_dict response_json = true ->
  (at_path response_json ["data"] = None
   \/ exists data, at_path response_json ["data"] = Some data
                   /\ is_dict data = true) ->
  (at_path response_json ["data"; "attributes"] = None
   \/ exists attributes,
        at_path response_json ["data"; "attributes"] = Some attributes
        /\ truthy attributes = false) ->
  read_export response_json
  = Raise (ValueError [Lit "Export response came back empty: ";
                       FmtValue response_json]).
Proof.
  intros Hdict Hdata Hattrs.
  destruct response_json as [| | | | | |top]; try discriminate.
  unfold read_export. simpl in *.
  destruct (top !! "data") as [data|] eqn:Etop; simpl.
  - destruct Hdata as [Hdata | (data' & [= <-] & Hd)]; [discriminate|].
    destruct data as [| | | | | |dm]; try discriminate. simpl.
    destruct (dm !! "attributes") as [attrs|] eqn:Eattrs; simpl.
    + destruct Hattrs as [Hattrs | (attrs' & [= <-] & Hfalse)]; [discriminate|].
      rewrite Hfalse. reflexivity.
    + rewrite bool_decide_eq_true_2 by reflexivity. reflexivity.
  - rewrite lookup_empty. simpl.
    rewrite bool_decide_eq_true_2 by reflexivity. reflexivity.
Qed.

Lemma read_export_ready_without_path response_json :
  at_path response_json ["data"; "attributes"; "state"] = Some (JStr "READY") ->
  lacks_url_path response_json ->
  read_export response_json = Done JNull.
Proof.
  intros Hs Hu.
  apply at_path_cons in Hs as (top & data & -> & Hdata & Hs).
  apply at_path_cons in Hs as (dm & attrs & -> & Hattrs & Hs).
  apply at_path_cons in Hs as (am & st & -> & Hstate & Hs).
  simpl in Hs. injection Hs as ->.
  unfold lacks_url_path in Hu. simpl in Hu. rewrite Hdata, Hattrs in Hu.
  unfold read_export. simpl. rewrite Hdata. simpl. rewrite Hattrs. simpl.
  rewrite (bool_decide_eq_false_2 (am = ∅)).
  2:{ intros ->. rewrite lookup_empty in Hstate. discriminate. }
  simpl. rewrite Hstate.
  destruct (am !! "url") as [uo|] eqn:Hurl; simpl.
  - destruct Hu as [Hu | (uo' & [= <-] & [Hfalse | (um & -> & Hpath)])];
      [discriminate| |].
    + rewrite Hfalse. reflexivity.
    + simpl. destruct (negb (bool_decide (um = ∅))); simpl; [|reflexivity].
      destruct Hpath as [-> | ->]; reflexivity.
  - rewrite bool_decide_eq_true_2 by reflexivity. reflexivity.
Qed.

End RequesterClaims.

(** C3.  A response whose attributes hold state READY and a string at
    [url.path]: the requester returns exactly that string, and its only
    effect is the POST. *)
Theorem requester_returns_ready_url env token asset_id payload w response_json url :
  answers env (posts w) response_json ->
  at_path response_json ["data"; "attributes"; "state"] = Some (JStr "READY") ->
  at_path response_json ["data"; "attributes"; "url"; "path"] = Some (JStr url) ->
  try_get_download_url env token asset_id payload w
  = (Done (JStr url),
     after_post env (export_url asset_id) (export_headers token) payload w).
Proof.
  intros Hans Hstate Hurl.
  rewrite (try_get_download_url_answered env _ _ _ _ _ Hans).
  rewrite (read_export_ready _ _ Hstate Hurl). reflexivity.
Qed.

Lemma requester_returns_ready_url_witness :
  fst (try_get_download_url (answering ready_reply) "secret" "abc-123"
         export_payload fresh)
  = Done (JStr "https://example/x.glb").
Proof.
  rewrite (requester_returns_ready_url (answering ready_reply) "secret"
             "abc-123" export_payload fresh ready_reply "https://example/x.glb").
  - reflexivity.
  - exists sample_response. split; reflexivity.
  - reflexivity.
  - reflexivity.
Defined.

(** C4, as stated, fails: a response in state ERROR whose [url] is a
    string makes the requester stop at [url_obj.get] with an
    AttributeError, before the state is looked at. *)
Lemma error_state_with_text_url_counterexample :
  answers (answering error_with_text_url) (posts fresh) error_with_text_url
  /\ at_path error_with_text_url ["data"; "attributes"; "state"]
     = Some (JStr "ERROR")
  /\ fst (try_get_download_url (answering error_with_text_url) "secret"
            "abc-123" export_payload fresh)
     = Raise (no_attribute (JStr "x") "get")
  /\ fst (try_get_download_url (answering error_with_text_url) "secret"
            "abc-123" export_payload fresh)
     <> Raise (RuntimeError [Lit "Export finished with ERROR state: ";
                             FmtValue error_with_text_url] None).
Proof.
  split; [exists sample_response; split; reflexivity|].
  split; [reflexivity|].
  assert (Hrun : fst (try_get_download_url (answering error_with_text_url)
                        "secret" "abc-123" export_payload fresh)
                 = Raise (no_attribute (JStr "x") "get")) by reflexivity.
  split; [exact Hrun|]. rewrite Hrun. unfold no_attribute. congruence.
Qed.

(** C4, amended.  A response whose attributes hold state ERROR and whose
    [url] is absent, empty or a dictionary: the requester raises the
    RuntimeError for a failed job, its message holding the response. *)
Theorem requester_raises_on_error_state env token asset_id payload w response_json :
  answers env (posts w) response_json ->
  at_path response_json ["data"; "attributes"; "state"] = Some (JStr "ERROR") ->
  (at_path response_json ["data"; "attributes"; "url"] = None
   \/ exists url_obj,
        at_path response_json ["data"; "attributes"; "url"] = Some url_obj
        /\ (truthy url_obj = false \/ is_dict url_obj = true)) ->
  try_get_download_url env token asset_id payload w
  = (Raise (RuntimeError [Lit "Export finished with ERROR state: ";
                          FmtValue response_json] None),
     after_post env (export_url asset_id) (export_headers token) payload w).
Proof.
  intros Hans Hstate Hurl.
  rewrite (try_get_download_url_answered env _ _ _ _ _ Hans).
  rewrite (read_export_error _ Hstate Hurl). reflexivity.
Qed.

Lemma requester_raises_on_error_state_witness :
  fst (try_get_download_url (answering error_reply) "secret" "abc-123"
         export_payload fresh)
  = Raise (RuntimeError [Lit "Export finished with ERROR state: ";
                         FmtValue error_reply] None).
Proof.
  rewrite (requester_raises_on_error_state (answering error_reply) "secret"
             "abc-123" export_payload fresh error_reply).
  - reflexivity.
  - exists sample_response. split; reflexivity.
  - reflexivity.
  - left. reflexivity.
Defined.

(** C5, as stated, fails: in [{"data": null}] the attributes are missing,
    yet the requester stops at [data.get] with an AttributeError and not
    with the ValueError for a malformed response. *)
Lemma null_data_counterexample :
  answers (answering null_data_reply) (posts fresh) null_data_reply
  /\ at_path null_data_reply ["data"; "attributes"] = None
  /\ fst (try_get_download_url (answering null_data_reply) "secret" "abc-123"
            export_payload fresh)
     = Raise (no_attribute JNull "get")
  /\ fst (try_get_download_url (answering null_data_reply) "secret" "abc-123"
            export_payload fresh)
     <> Raise (ValueError [Lit "Export response came back empty: ";
                           FmtValue null_data_reply]).
Proof.
  split; [exists sample_response; split; reflexivity|].
  split; [reflexivity|].
  assert (Hrun : fst (try_get_download_url (answering null_data_reply)
                        "secret" "abc-123" export_payload fresh)
                 = Raise (no_attribute JNull "get")) by reflexivity.
  split; [exact Hrun|]. rewrite Hrun. unfold no_attribute. congruence.
Qed.

(** C5, amended.  A response that is a dictionary whose [data] is absent
    or a dictionary, and whose attributes are missing or empty: the
    requester raises the ValueError for a malformed response, its message
    holding the response; it returns neither a URL nor pending. *)
Theorem requester_raises_on_empty_attributes env token asset_id payload w
    response_json :
  answers env (posts w) response_json ->
  is_dict response_json = true ->
  (at_path response_json ["data"] = None
   \/ exists data, at_path response_json ["data"] = Some data
                   /\ is_dict data = true) ->
  (at_path response_json ["data"; "attributes"] = None
   \/ exists attributes,
        at_path response_json ["data"; "attributes"] = Some attributes
        /\ truthy attributes = false) ->
  try_get_download_url env token asset_id payload w
  = (Raise (ValueError [Lit "Export response came back empty: ";
                        FmtValue response_json]),
     after_post env (export_url asset_id) (export_headers token) payload w)
  /\ forall v, fst (try_get_download_url env token asset_id payload w) <> Done v.
Proof.
  intros Hans Hdict Hdata Hattrs.
  rewrite (try_get_download_url_answered env _ _ _ _ _ Hans).
  rewrite (read_export_empty _ Hdict Hdata Hattrs).
  split; [reflexivity | discriminate].
Qed.

Lemma requester_raises_on_empty_attributes_witness :
  fst (try_get_download_url (answering reply_without_data) "secret" "abc-123"
         export_payload fresh)
  = Raise (ValueError [Lit "Export response came back empty: ";
                       FmtValue reply_without_data]).
Proof.
  destruct (requester_raises_on_empty_attributes (answering reply_without_data)
              "secret" "abc-123" export_payload fresh reply_without_data)
    as [Hrun _].
  - exists sample_response. split; reflexivity.
  - reflexivity.
  - left. reflexivity.
  - left. reflexivity.
  - rewrite Hrun. reflexivity.
Defined.

(** ** The poll loop: timeout, pauses and results *)

Lemma export_avatar_fuel env fuel fuel' token asset_id w r w' :
  export_avatar env fuel token asset_id w = (r, w') ->
  r <> OutOfFuel ->
  (fuel <= fuel')%nat ->
  export_avatar env fuel' token asset_id w = (r, w').
Proof.
  unfold export_avatar, bind, time_time. cbv beta iota.
  intros Hrun Hr Hle. eapply poll_loop_fuel; eauto.
Qed.

Lemma pending_answer env k response_json v :
  answers env k response_json ->
  read_export response_json = Done v ->
  requester_returns env k v.
Proof.
  intros Hans Hread token asset_id payload w <-.
  rewrite (try_get_download_url_answered env _ _ _ _ _ Hans), Hread.
  reflexivity.
Qed.

(** C6.  A response in state READY without [url.path] ([url] absent or
    empty, or [path] absent from it): the requester returns [None] and
    raises nothing; the loop takes that for a pending result: unless the
    deadline has passed, it reports, sleeps for the poll interval and
    sends the next request. *)
Theorem ready_without_path_is_polled_again env token asset_id w response_json :
  answers env (posts w) response_json ->
  at_path response_json ["data"; "attributes"; "state"] = Some (JStr "READY") ->
  lacks_url_path response_json ->
  let w1 := posted env token asset_id w in
  let elapsed := (clock w1 - clock w)%Q in
  try_get_download_url env token asset_id export_payload w = (Done JNull, w1)
  /\ forall fuel,
       ((600 < elapsed)%Q
        /\ export_avatar env (S (S fuel)) token asset_id w
           = (Raise timed_out, w1))
       \/ ((elapsed <= 600)%Q
           /\ export_avatar env (S (S fuel)) token asset_id w
              = poll_loop env (S fuel) token asset_id (clock w) JNull
                  (after_wait elapsed w1)
           /\ exists rest,
                trace (snd (export_avatar env (S (S fuel)) token asset_id w))
                = (trace w
                   ++ [EPost (export_url asset_id) (export_headers token)
                         export_payload;
                       EPrint Stdout [Lit "Export processing... (elapsed: ";
                                      FmtInt (int_of elapsed); Lit "s)"];
                       ESleep 5;
                       EPost (export_url asset_id) (export_headers token)
                         export_payload]
                   ++ rest)%list).
Proof.
  intros Hans Hstate Hurl w1 elapsed.
  pose proof (read_export_ready_without_path _ Hstate Hurl) as Hread.
  assert (Hreq : try_get_download_url env token asset_id export_payload w
                 = (Done JNull, w1)).
  { rewrite (try_get_download_url_answered env _ _ _ _ _ Hans), Hread.
    reflexivity. }
  split; [exact Hreq|]. intros fuel.
  assert (Hstep : export_avatar env (S (S fuel)) token asset_id w
                  = if negb (Qle_bool elapsed (inject_Z max_wait))
                    then (Raise timed_out, w1)
                    else poll_loop env (S fuel) token asset_id (clock w) JNull
                           (after_wait elapsed w1)).
  { unfold export_avatar, bind at 1, time_time at 1. cbv beta iota.
    rewrite (poll_loop_pending env (S fuel) token asset_id (clock w) JNull w JNull);
      [reflexivity | reflexivity | rewrite Hreq; reflexivity | reflexivity]. }
  destruct (negb (Qle_bool elapsed (inject_Z max_wait))) eqn:Hover.
  - left. split; [apply over_deadline, Hover | exact Hstep].
  - right. apply negb_false_iff, Qle_bool_iff in Hover.
    split; [exact Hover|]. split; [exact Hstep|]. rewrite Hstep.
    destruct (poll_loop_posts_first env fuel token asset_id (clock w) JNull
                (after_wait elapsed w1) eq_refl) as [rest Hrest].
    exists rest. rewrite Hrest. simpl. rewrite <- !app_assoc. reflexivity.
Qed.

Lemma ready_without_path_is_polled_again_witness :
  fst (try_get_download_url (answering ready_without_url) "secret" "abc-123"
         export_payload fresh) = Done JNull
  /\ posts (snd (export_avatar (answering ready_without_url) 2 "secret"
                   "abc-123" fresh)) = 2%nat.
Proof.
  destruct (ready_without_path_is_polled_again (answering ready_without_url)
              "secret" "abc-123" fresh ready_without_url) as [Hreq _].
  - exists sample_response. split; reflexivity.
  - reflexivity.
  - left. reflexivity.
  - rewrite Hreq. split; reflexivity.
Defined.

Lemma never_ready_pending k : pending never_ready k.
Proof.
  exists JNull. split; [reflexivity|].
  apply (pending_answer never_ready k processing_reply).
  - exists sample_response. split; reflexivity.
  - reflexivity.
Qed.

Lemma ready_after_pending n k : (k < n)%nat -> pending (ready_after n) k.
Proof.
  intros Hk. exists JNull. split; [reflexivity|].
  apply (pending_answer (ready_after n) k processing_reply).
  - exists sample_response. split; [|reflexivity].
    simpl. apply Nat.ltb_lt in Hk. rewrite Hk. reflexivity.
  - reflexivity.
Qed.

Lemma ready_after_ready n k :
  (n <= k)%nat ->
  requester_returns (ready_after n) k (JStr "https://example/x.glb").
Proof.
  intros Hk. apply (pending_answer (ready_after n) k ready_reply).
  - exists sample_response. split; [|reflexivity].
    simpl. apply Nat.ltb_ge in Hk. rewrite Hk. reflexivity.
  - reflexivity.
Qed.

(** C1.  When every call of the requester is pending (and no call takes
    negative time), [export_avatar] ends in the TimeoutError that names the
    600 seconds, after at most 121 pauses, one request more than pauses,
    and with more than 600 seconds on the clock since the loop started.
    Each iteration, right after its pending result and before any
    sleeping, compares the time elapsed since the start with 600: strictly
    more raises the error from the world the request left, anything else
    reports, sleeps and iterates. *)
Theorem export_times_out_when_always_pending env token asset_id :
  (forall k, pending env k) ->
  (forall k, (0 <= post_latency env k)%Q) ->
  (forall w fuel,
     (121 < fuel)%nat ->
     exists w' pauses,
       export_avatar env fuel token asset_id w
       = (Raise (TimeoutError [Lit "Export timed out after "; FmtInt 600;
                               Lit " seconds"]), w')
       /\ (pauses <= 121)%nat
       /\ naps (trace w')
          = (naps (trace w) ++ repeat (inject_Z poll_interval) pauses)%list
       /\ posts w' = (posts w + S pauses)%nat
       /\ (600 < clock w' - clock w)%Q)
  /\ (forall w fuel start_time download_url,
        truthy download_url = false ->
        exists v,
          truthy v = false
          /\ poll_loop env (S fuel) token asset_id start_time download_url w
             = let w1 := posted env token asset_id w in
               let elapsed := (clock w1 - start_time)%Q in
               if negb (Qle_bool elapsed 600) then
                 (Raise (TimeoutError [Lit "Export timed out after ";
                                       FmtInt 600; Lit " seconds"]), w1)
               else
                 poll_loop env fuel token asset_id start_time v
                   (after_wait elapsed w1)).
Proof.
  intros Hpending Hlat. split.
  - intros w fuel Hfuel.
    unfold export_avatar, bind, time_time. cbv beta iota.
    apply (poll_loop_times_out env token asset_id (clock w) Hpending Hlat
             121 JNull w fuel); [reflexivity | | exact Hfuel].
    change (inject_Z (Z.of_nat 121)) with 121%Q. lra.
  - intros w fuel start_time download_url Hfalse.
    destruct (Hpending (posts w)) as (v & Hv & Hret).
    exists v. split; [exact Hv|].
    apply (poll_loop_pending env fuel token asset_id start_time download_url w v
             Hfalse (Hret token asset_id export_payload w eq_refl) Hv).
Qed.

Lemma export_times_out_when_always_pending_witness :
  fst (export_avatar never_ready 122 "secret" "abc-123" fresh)
  = Raise (TimeoutError [Lit "Export timed out after "; FmtInt 600;
                         Lit " seconds"]).
Proof.
  destruct (export_times_out_when_always_pending never_ready "secret" "abc-123"
              never_ready_pending) as [Hrun _].
  - intros k. simpl. discriminate.
  - destruct (Hrun fresh 122%nat) as (w' & pauses & Heq & _).
    + repeat constructor.
    + rewrite Heq. reflexivity.
Defined.

(** C2, as stated, fails: pending on the first 122 calls and ready on the
    next one, with requests that take no time, the deadline passes at the
    122nd check and no run of the loop returns the URL. *)
Lemma late_url_counterexample :
  (forall k, (k < 122)%nat -> pending (ready_after 122) (posts fresh + k))
  /\ requester_returns (ready_after 122) (posts fresh + 122)
       (JStr "https://example/x.glb")
  /\ fst (export_avatar (ready_after 122) 200 "secret" "abc-123" fresh)
     = Raise timed_out
  /\ ~ returns_after_pauses (ready_after 122) 122 "https://example/x.glb"
         "secret" "abc-123" fresh.
Proof.
  assert (Hrun : fst (export_avatar (ready_after 122) 200 "secret" "abc-123" fresh)
                 = Raise timed_out) by (vm_compute; reflexivity).
  split; [intros k Hk; apply ready_after_pending; exact Hk|].
  split; [apply ready_after_ready; simpl; lia|].
  split; [exact Hrun|].
  intros (fuel & w' & Hdone & _).
  destruct (export_avatar (ready_after 122) 200 "secret" "abc-123" fresh)
    as [r w200] eqn:H200. simpl in Hrun. subst r.
  destruct (le_lt_dec fuel 200) as [Hle | Hgt].
  - rewrite (export_avatar_fuel _ _ _ _ _ _ _ _ Hdone ltac:(discriminate) Hle)
      in H200. discriminate.
  - rewrite (export_avatar_fuel _ _ fuel _ _ _ _ _ H200 ltac:(discriminate)
               ltac:(lia)) in Hdone. discriminate.
Qed.

(** C2, amended.  If the requester is pending on its first [n] calls, each
    of these results arriving no later than 600 seconds after the loop
    started, and returns a non-empty URL on the next call, then
    [export_avatar] pauses exactly [n] times, each time for the 5 seconds
    of the poll interval, makes [n + 1] requests and returns that URL. *)
Theorem export_returns_url_after_pending env token asset_id w n url :
  url <> "" ->
  (forall k, (k < n)%nat -> pending env (posts w + k)) ->
  requester_returns env (posts w + n) (JStr url) ->
  within_deadline env (clock w) (clock w) (posts w) n ->
  forall fuel,
    (n < fuel)%nat ->
    exists w',
      export_avatar env fuel token asset_id w = (Done (JStr url), w')
      /\ naps (trace w') = (naps (trace w) ++ repeat 5%Q n)%list
      /\ posts w' = (posts w + S n)%nat.
Proof.
  intros Hurl Hpending Hready Hdead fuel Hfuel.
  unfold export_avatar, bind, time_time. cbv beta iota.
  apply (poll_loop_returns env token asset_id (clock w) (JStr url)); auto.
  simpl. apply negb_true_iff, String.eqb_neq, Hurl.
Qed.

Lemma export_returns_url_after_pending_witness :
  exists w',
    export_avatar (ready_after 2) 3 "secret" "abc-123" fresh
    = (Done (JStr "https://example/x.glb"), w')
    /\ naps (trace w') = [5%Q; 5%Q]
    /\ posts w' = 3%nat.
Proof.
  apply (export_returns_url_after_pending (ready_after 2) "secret" "abc-123"
           fresh 2 "https://example/x.glb").
  - discriminate.
  - intros k Hk. apply ready_after_pending. exact Hk.
  - apply ready_after_ready. simpl. lia.
  - simpl. split; [discriminate | split; [discriminate | exact I]].
  - lia.
Defined.

(** ** The downloader: written bytes and failed downloads *)

(** A download that succeeds: what it has done and what it leaves. *)
Lemma download_file_done env download_url output_path w :
  fst (download_file env download_url output_path w) = Done tt ->
  let p := path_parts env output_path in
  let w' := snd (download_file env download_url output_path w) in
  exists r content,
    http_get env download_url = GetResponse r content None
    /\ (forall k, (k <= length (parent p))%nat ->
          lookup_node (files w') (take k (parent p)) = Some Dir)
    /\ files w' !! p = Some (File (received content))
    /\ trace w'
       = (trace w
          ++ [EMkdir (parent p); EOpen p; EGet download_url 60]
          ++ map (EWrite p) (iter_content (1024 * 1024) content)
          ++ [EPrint Stdout [Lit "  File downloaded to: "; FmtStr output_path]])%list.
Proof.
  intros Hdone p w'. subst w'.
  destruct (prepare_output p w) as [r0 w1] eqn:Hprep.
  destruct (result_eq_done r0) as [-> | Hr0].
  2:{ rewrite (download_file_unprepared env _ _ _ _ _ Hprep Hr0) in Hdone.
      contradiction. }
  revert Hdone. rewrite (download_file_prepared env _ _ _ _ Hprep). cbv zeta.
  fold p.
  destruct (prepare_output_done p w w1 Hprep)
    as (Hbase & Hfile & Htrace & Hdirs & _).
  destruct (http_get env download_url) as [e | r content broken];
    [discriminate|].
  destruct (raise_for_status r) as [[]|e|]; [|discriminate..].
  destruct (write_chunks_spec p (iter_content (1024 * 1024) content)
              (log (EGet download_url 60) w1) [] Hfile)
    as (w3 & Hrun & Hfile3 & Htrace3 & Hother).
  rewrite Hrun. simpl snd.
  destruct broken as [e|]; [discriminate|]. intros _.
  exists r, content. split; [reflexivity|].
  split; [|split].
  - intros k Hk. specialize (Hdirs k Hk). revert Hdirs. simpl files.
    unfold lookup_node.
    destruct (is_base (take k (parent p))); [auto|]. intros Hd.
    rewrite Hother; [exact Hd|]. intros Heq. rewrite Heq in Hd.
    simpl in Hfile. rewrite Hfile in Hd. discriminate Hd.
  - simpl files. rewrite Hfile3, iter_content_concat. reflexivity.
  - simpl trace. rewrite Htrace3. simpl trace. rewrite Htrace.
    rewrite <- !app_assoc. reflexivity.
Qed.

(** C7, as stated, fails: what is written are the pieces as the stream
    hands them over, not the body cut into chunks of 1 MiB.  A body of 10
    bytes that arrives as 4, 4 and 2 bytes is written in three pieces,
    where its fixed-size chunks are the one chunk of 10 bytes; the file
    holds the body all the same. *)
Lemma delivered_pieces_counterexample :
  fst (download_file (ready_after 0) (JStr "https://example/x.glb")
         "abc-123.glb" fresh) = Done tt
  /\ writes (trace (snd (download_file (ready_after 0)
                           (JStr "https://example/x.glb") "abc-123.glb" fresh)))
     = [[Byte.x67; Byte.x6c; Byte.x54; Byte.x46];
        [Byte.x02; Byte.x00; Byte.x00; Byte.x00];
        [Byte.x0a; Byte.x00]]
  /\ fixed_size_chunks (1024 * 1024) (received sample_body) = [sample_bytes]
  /\ writes (trace (snd (download_file (ready_after 0)
                           (JStr "https://example/x.glb") "abc-123.glb" fresh)))
     <> fixed_size_chunks (1024 * 1024) (received sample_body)
  /\ files (snd (download_file (ready_after 0) (JStr "https://example/x.glb")
                   "abc-123.glb" fresh)) !! ["abc-123.glb"]
     = Some (File sample_bytes).
Proof.
  assert (Hwrites :
            writes (trace (snd (download_file (ready_after 0)
                                  (JStr "https://example/x.glb") "abc-123.glb"
                                  fresh)))
            = [[Byte.x67; Byte.x6c; Byte.x54; Byte.x46];
               [Byte.x02; Byte.x00; Byte.x00; Byte.x00];
               [Byte.x0a; Byte.x00]]) by (vm_compute; reflexivity).
  assert (Hfixed : fixed_size_chunks (1024 * 1024) (received sample_body)
                   = [sample_bytes]) by (vm_compute; reflexivity).
  split; [vm_compute; reflexivity|]. split; [exact Hwrites|].
  split; [exact Hfixed|]. split; [|vm_compute; reflexivity].
  rewrite Hwrites, Hfixed. discriminate.
Qed.

(** C7, amended.  A download that succeeds has first created the missing
    parent directories of the output path, then opened the file and sent
    the GET, and has written, in order, the pieces that [iter_content]
    yields for a chunk size of 1 MiB, which are the pieces the transfer
    delivers: the file holds exactly the body. *)
Theorem download_file_writes_body env download_url output_path w :
  fst (download_file env download_url output_path w) = Done tt ->
  let p := path_parts env output_path in
  let w' := snd (download_file env download_url output_path w) in
  exists r content,
    http_get env download_url = GetResponse r content None
    /\ (forall k, (k <= length (parent p))%nat ->
          lookup_node (files w') (take k (parent p)) = Some Dir)
    /\ files w' !! p = Some (File (received content))
    /\ trace w'
       = (trace w
          ++ [EMkdir (parent p); EOpen p; EGet download_url 60]
          ++ map (EWrite p) (iter_content (1024 * 1024) content)
          ++ [EPrint Stdout [Lit "  File downloaded to: "; FmtStr output_path]])%list
    /\ concat (iter_content (1024 * 1024) content) = received content.
Proof.
  intros Hdone p w'.
  destruct (download_file_done env download_url output_path w Hdone)
    as (r & content & Hget & Hdirs & Hfile & Htrace).
  exists r, content. repeat (split; [assumption|]).
  apply iter_content_concat.
Qed.

Lemma download_file_writes_body_witness :
  files (snd (download_file (ready_after 0) (JStr "https://example/x.glb")
                "avatars/abc-123.glb" fresh))
    !! ["avatars"; "abc-123.glb"] = Some (File sample_bytes)
  /\ files (snd (download_file (ready_after 0) (JStr "https://example/x.glb")
                   "avatars/abc-123.glb" fresh))
       !! ["avatars"] = Some Dir
  /\ writes (trace (snd (download_file (ready_after 0)
                           (JStr "https://example/x.glb") "avatars/abc-123.glb"
                           fresh)))
     = [[Byte.x67; Byte.x6c; Byte.x54; Byte.x46];
        [Byte.x02; Byte.x00; Byte.x00; Byte.x00];
        [Byte.x0a; Byte.x00]].
Proof.
  destruct (download_file_writes_body (ready_after 0)
              (JStr "https://example/x.glb") "avatars/abc-123.glb" fresh)
    as (r & content & Hget & Hdirs & Hfile & _).
  - reflexivity.
  - injection Hget as _ <-. split; [exact Hfile|].
    split; [exact (Hdirs 1%nat ltac:(repeat constructor)) | reflexivity].
Defined.

(** C10.  The output file is opened, hence created or emptied, before the
    GET is sent: when the download gets as far as the GET and this fails,
    by a transport error or by a status from 400 to 599, [download_file]
    raises and leaves an empty file at the output path, whatever was
    there before. *)
Theorem failed_download_leaves_empty_file env download_url output_path w w1 :
  let p := path_parts env output_path in
  prepare_output p w = (Done tt, w1) ->
  ((exists e, http_get env download_url = GetFailed e)
   \/ (exists r content broken,
         http_get env download_url = GetResponse r content broken
         /\ (400 <= status_code r < 600)%Z)) ->
  exists e w',
    download_file env download_url output_path w = (Raise e, w')
    /\ files w' !! p = Some (File [])
    /\ trace w'
       = (trace w ++ [EMkdir (parent p); EOpen p; EGet download_url 60])%list.
Proof.
  intros p Hprep Hget.
  destruct (prepare_output_done p w w1 Hprep) as (_ & Hfile & Htrace & _).
  rewrite (download_file_prepared env _ _ _ _ Hprep). cbv zeta.
  assert (Htrace' : trace (log (EGet download_url 60) w1)
                    = (trace w ++ [EMkdir (parent p); EOpen p;
                                   EGet download_url 60])%list).
  { simpl. rewrite Htrace, <- app_assoc. reflexivity. }
  destruct Hget as [(e & ->) | (r & content & broken & -> & Hstatus)].
  - eexists _, _. split; [reflexivity|]. split; [exact Hfile | exact Htrace'].
  - destruct (status_rejected r Hstatus) as (e & ->).
    eexists _, _. split; [reflexivity|]. split; [exact Hfile | exact Htrace'].
Qed.

Lemma failed_download_leaves_empty_file_witness :
  files used !! ["abc-123.glb"] = Some (File [Byte.x01; Byte.x02])
  /\ exists e w',
       download_file gone (JStr "https://example/x.glb") "abc-123.glb" used
       = (Raise e, w')
       /\ files w' !! ["abc-123.glb"] = Some (File []).
Proof.
  split; [reflexivity|].
  destruct (failed_download_leaves_empty_file gone
              (JStr "https://example/x.glb") "abc-123.glb" used
              (snd (prepare_output ["abc-123.glb"] used)))
    as (e & w' & Hrun & Hfile & _).
  - reflexivity.
  - right. exists not_found, empty_body, None. split; [reflexivity|]. simpl. lia.
  - exists e, w'. split; [exact Hrun | exact Hfile].
Defined.

(** ** The orchestrator: the token *)

(** C8.  With the token variable unset or empty, [main] announces step 1,
    prints the one line ["Error: MESHCAPADE_API_TOKEN is not set in the
    environment variables"] to standard error and ends with status 1; it
    sends no request and leaves the file system as it was. *)
Theorem main_fails_without_token env fuel asset_id w :
  getenv env "MESHCAPADE_API_TOKEN" = None
  \/ getenv env "MESHCAPADE_API_TOKEN" = Some "" ->
  exists w',
    main env fuel asset_id w = (Done 1%Z, w')
    /\ trace w'
       = (trace w ++ [EPrint Stdout [Lit "Step 1: Getting API token..."];
                      EPrint Stderr token_error])%list
    /\ single_line token_error = true
    /\ files w' = files w
    /\ posts w' = posts w.
Proof.
  intros Htoken.
  exists (log (EPrint Stderr token_error)
            (log (EPrint Stdout [Lit "Step 1: Getting API token..."]) w)).
  assert (Hfalse : truthy (env_value (getenv env "MESHCAPADE_API_TOKEN")) = false)
    by (destruct Htoken as [-> | ->]; reflexivity).
  split.
  - unfold main, try_except, bind at 1, print at 1. cbv beta iota zeta.
    rewrite Hfalse. reflexivity.
  - simpl. rewrite <- app_assoc.
    split; [reflexivity|]. split; [reflexivity|]. split; reflexivity.
Qed.

Lemma main_fails_without_token_witness :
  exists w',
    main without_token 5 "abc-123" fresh = (Done 1%Z, w')
    /\ files w' = ∅ /\ posts w' = 0%nat.
Proof.
  destruct (main_fails_without_token without_token 5 "abc-123" fresh)
    as (w' & Hrun & _ & _ & Hfiles & Hposts).
  - left. reflexivity.
  - exists w'. split; [exact Hrun|]. split; [exact Hfiles | exact Hposts].
Defined.

(** ** Further properties of the requester *)

(** X1.  A response with non-empty attributes, a readable [url] and a state
    that is absent or anything but READY and ERROR: the requester returns
    [None], whatever [url] holds. *)
Theorem requester_pending_on_other_state env token asset_id payload w
    response_json members :
  answers env (posts w) response_json ->
  at_path response_json ["data"; "attributes"] = Some (JObj members) ->
  members <> ∅ ->
  members !! "state" <> Some (JStr "READY") ->
  members !! "state" <> Some (JStr "ERROR") ->
  url_readable response_json ->
  try_get_download_url env token asset_id payload w
  = (Done JNull,
     after_post env (export_url asset_id) (export_headers token) payload w).
Proof.
  intros Hans Hattrs Hne Hready Herror Hurl.
  rewrite (try_get_download_url_answered env _ _ _ _ _ Hans). f_equal.
  apply at_path_cons in Hattrs as (top & data & -> & Hdata & Hattrs).
  apply at_path_cons in Hattrs as (dm & attrs & -> & Hattrs & Heq).
  simpl in Heq. injection Heq as ->.
  unfold url_readable in Hurl. simpl in Hurl. rewrite Hdata, Hattrs in Hurl.
  unfold read_export. simpl. rewrite Hdata. simpl. rewrite Hattrs. simpl.
  rewrite (bool_decide_eq_false_2 (members = ∅)) by exact Hne. simpl.
  assert (Hr : eq_str (default JNull (members !! "state")) ASSET_STATE_READY = false).
  { destruct (members !! "state") as [[]|]; try reflexivity.
    simpl. apply String.eqb_neq. intros ->. apply Hready. reflexivity. }
  assert (He : eq_str (default JNull (members !! "state")) ASSET_STATE_ERROR = false).
  { destruct (members !! "state") as [[]|]; try reflexivity.
    simpl. apply String.eqb_neq. intros ->. apply Herror. reflexivity. }
  destruct (members !! "url") as [uo|] eqn:Eurl; simpl.
  - destruct Hurl as [Hurl | (uo' & [= <-] & [Hfalse | Hdict])]; [discriminate| |].
    + rewrite Hfalse. simpl. rewrite Hr, He. reflexivity.
    + destruct uo as [| | | | | |um]; try discriminate. simpl.
      destruct (negb (bool_decide (um = ∅))); simpl; rewrite Hr, He;
        reflexivity.
  - rewrite bool_decide_eq_true_2 by reflexivity. simpl. rewrite Hr, He.
    reflexivity.
Qed.

Lemma requester_pending_on_other_state_witness :
  fst (try_get_download_url (answering processing_reply) "secret" "abc-123"
         export_payload fresh) = Done JNull.
Proof.
  rewrite (requester_pending_on_other_state (answering processing_reply)
             "secret" "abc-123" export_payload fresh processing_reply
             {[ "state" := JStr "PROCESSING" ]}).
  - reflexivity.
  - exists sample_response. split; reflexivity.
  - reflexivity.
  - intros H. apply (f_equal (lookup "state")) in H. discriminate H.
  - intros H. discriminate H.
  - intros H. discriminate H.
  - left. reflexivity.
Defined.

(** X2.  A POST answered with a status from 400 to 599: the requester
    raises the HTTPError of [raise_for_status] and never looks at the body,
    not even one that says READY. *)
Theorem requester_raises_on_http_status env token asset_id payload w r body :
  http_post env (posts w) = PostResponse r body ->
  (400 <= status_code r < 600)%Z ->
  exists kind,
    (kind = " Client Error: " \/ kind = " Server Error: ")
    /\ try_get_download_url env token asset_id payload w
       = (Raise (HTTPError [FmtInt (status_code r); Lit kind;
                            FmtStr (reason r); Lit " for url: ";
                            FmtStr (response_url r)]),
          after_post env (export_url asset_id) (export_headers token) payload w).
Proof.
  intros Hpost Hstatus.
  unfold try_get_download_url, bind, requests_post, lift.
  rewrite Hpost. simpl. unfold raise_for_status.
  destruct ((400 <=? status_code r)%Z && (status_code r <? 500)%Z) eqn:E1.
  { exists " Client Error: ". split; [left; reflexivity | reflexivity]. }
  destruct ((500 <=? status_code r)%Z && (status_code r <? 600)%Z) eqn:E2.
  { exists " Server Error: ". split; [right; reflexivity | reflexivity]. }
  apply andb_false_iff in E1, E2. lia.
Qed.

Lemma requester_raises_on_http_status_witness :
  exists msg,
    fst (try_get_download_url
           (posting (PostResponse server_error (Done ready_reply)) good_download)
           "secret" "abc-123" export_payload fresh)
    = Raise (HTTPError msg).
Proof.
  destruct (requester_raises_on_http_status
              (posting (PostResponse server_error (Done ready_reply)) good_download)
              "secret" "abc-123" export_payload fresh server_error
              (Done ready_reply)) as (kind & _ & Hrun).
  - reflexivity.
  - simpl. lia.
  - rewrite Hrun. eexists. reflexivity.
Defined.

Lemma requester_propagates_failures_at env token asset_id payload w e :
  http_post env (posts w) = PostFailed e ->
  fst (try_get_download_url env token asset_id payload w) = Raise e.
Proof.
  intros Hpost. unfold try_get_download_url, bind, requests_post, lift.
  rewrite Hpost. reflexivity.
Qed.

(** X3.  A POST that fails in transport, or an accepted answer whose body
    is not JSON: the requester raises that very error, having sent its one
    request. *)
Theorem requester_propagates_failures env token asset_id payload w e :
  http_post env (posts w) = PostFailed e
  \/ (exists r, http_post env (posts w) = PostResponse r (Raise e)
                /\ raise_for_status r = Done tt) ->
  try_get_download_url env token asset_id payload w
  = (Raise e,
     after_post env (export_url asset_id) (export_headers token) payload w).
Proof.
  intros [Hpost | (r & Hpost & Hstatus)];
    unfold try_get_download_url, bind, requests_post, lift; rewrite Hpost.
  - reflexivity.
  - simpl. rewrite Hstatus. reflexivity.
Qed.

Lemma requester_propagates_failures_witness :
  fst (try_get_download_url (refused_after 0) "secret" "abc-123"
         export_payload fresh) = Raise connection_refused.
Proof.
  rewrite (requester_propagates_failures (refused_after 0) "secret" "abc-123"
             export_payload fresh connection_refused).
  - reflexivity.
  - left. reflexivity.
Defined.

(** ** Further properties of the poll loop *)

Section PollMore.

Context (env : environment).

(** One iteration on an error of the requester. *)
Lemma poll_loop_raise fuel token asset_id start v0 w e :
  truthy v0 = false ->
  fst (try_get_download_url env token asset_id export_payload w) = Raise e ->
  poll_loop env (S fuel) token asset_id start v0 w
  = (Raise e, posted env token asset_id w).
Proof.
  intros H0 Hreq. rewrite poll_loop_unfold, H0. change (negb false) with true.
  cbv iota. unfold bind at 1. cbv beta.
  pose proof (try_get_download_url_world env token asset_id export_payload w) as Hw.
  destruct (try_get_download_url env token asset_id export_payload w) as [r w1].
  simpl in Hreq, Hw. subst r w1. reflexivity.
Qed.

Lemma poll_loop_raises token asset_id start e :
  forall n v0 w fuel,
    truthy v0 = false ->
    (forall k, (k < n)%nat -> pending env (posts w + k)) ->
    requester_raises env (posts w + n) e ->
    within_deadline env start (clock w) (posts w) n ->
    (n < fuel)%nat ->
    exists w',
      poll_loop env fuel token asset_id start v0 w = (Raise e, w')
      /\ naps (trace w')
         = (naps (trace w) ++ repeat (inject_Z poll_interval) n)%list
      /\ posts w' = (posts w + S n)%nat.
Proof.
  induction n as [|n IH]; intros v0 w fuel Hv0 Hpending Hraise Hdead Hfuel;
    (destruct fuel as [|fuel]; [lia|]).
  - rewrite Nat.add_0_r in Hraise.
    specialize (Hraise token asset_id export_payload w eq_refl).
    rewrite (poll_loop_raise _ _ _ _ _ _ _ Hv0 Hraise).
    eexists. split; [reflexivity|]. split; [|simpl; lia].
    simpl repeat. rewrite app_nil_r. apply naps_posted.
  - destruct (Hpending 0%nat ltac:(lia)) as (v & Hv & Hret).
    rewrite Nat.add_0_r in Hret.
    specialize (Hret token asset_id export_payload w eq_refl).
    rewrite (poll_loop_pending _ _ _ _ _ _ _ _ Hv0 Hret Hv). cbv zeta.
    destruct Hdead as [Hnow Hdead].
    assert (Hover : negb (Qle_bool (clock (posted env token asset_id w) - start)
                            (inject_Z max_wait)) = false).
    { apply negb_false_iff, Qle_bool_iff. exact Hnow. }
    rewrite Hover.
    destruct (IH v (after_wait (clock (posted env token asset_id w) - start)
                      (posted env token asset_id w)) fuel Hv)
      as (w' & Hrun & Hn & Hposts).
    + intros k Hk. replace (posts _ + k)%nat with (posts w + S k)%nat
        by (simpl; lia). apply Hpending. lia.
    + replace (posts _ + n)%nat with (posts w + S n)%nat by (simpl; lia).
      exact Hraise.
    + exact Hdead.
    + lia.
    + exists w'. rewrite Hrun. split; [reflexivity|]. split.
      * rewrite Hn, naps_after_wait, naps_posted, <- app_assoc. reflexivity.
      * rewrite Hposts. simpl. lia.
Qed.

(** What the loop returns, it takes for a URL. *)
Lemma poll_loop_result_truthy fuel : forall token asset_id start v0 w v w',
  truthy v0 = false ->
  poll_loop env fuel token asset_id start v0 w = (Done v, w') ->
  truthy v = true.
Proof.
  induction fuel as [|fuel IH]; intros token asset_id start v0 w v w' Hv0.
  - simpl. rewrite Hv0. discriminate.
  - rewrite poll_loop_unfold, Hv0. change (negb false) with true. cbv iota.
    unfold bind at 1. cbv beta.
    destruct (try_get_download_url env token asset_id export_payload w)
      as [[v1|e|] w1]; try discriminate.
    destruct (truthy v1) eqn:Hv1.
    + intros [= <- _]. exact Hv1.
    + unfold bind at 1, time_time at 1. cbv beta iota zeta.
      destruct (negb (Qle_bool _ _)); [discriminate|].
      unfold bind at 1, print at 1. cbv beta iota.
      unfold bind at 1, time_sleep at 1. cbv beta iota.
      apply IH. exact Hv1.
Qed.

(** The effects of the loop, and the part of the world it leaves alone. *)
Lemma poll_loop_effects fuel : forall token asset_id start v0 w r w',
  poll_loop env fuel token asset_id start v0 w = (r, w') ->
  exists rest,
    trace w' = (trace w ++ rest)%list
    /\ Forall (poll_event token asset_id) rest
    /\ files w' = files w.
Proof.
  assert (Hnone : forall w, exists rest,
            trace w = (trace w ++ rest)%list
            /\ Forall (poll_event "" "") rest /\ files w = files w).
  { intros w. exists []. rewrite app_nil_r. auto. }
  induction fuel as [|fuel IH]; intros token asset_id start v0 w r w'.
  - simpl. destruct (negb (truthy v0)); intros [= _ <-];
      exists []; rewrite app_nil_r; auto.
  - rewrite poll_loop_unfold. destruct (negb (truthy v0)).
    2:{ intros [= _ <-]. exists []. rewrite app_nil_r. auto. }
    unfold bind at 1. cbv beta.
    pose proof (try_get_download_url_world env token asset_id export_payload w) as Hw.
    assert (Hpost : forall r0,
              (r0, posted env token asset_id w) = (r, w') ->
              exists rest,
                trace w' = (trace w ++ rest)%list
                /\ Forall (poll_event token asset_id) rest
                /\ files w' = files w).
    { intros r0 [= _ <-]. eexists. split; [reflexivity|]. split; [|reflexivity].
      constructor; [simpl; auto | constructor]. }
    destruct (try_get_download_url env token asset_id export_payload w)
      as [[v1|e|] w1]; simpl in Hw; subst w1; try (exact (Hpost _)).
    destruct (truthy v1); [exact (Hpost _)|].
    unfold bind at 1, time_time at 1. cbv beta iota zeta.
    destruct (negb (Qle_bool _ _)); [exact (Hpost _)|].
    unfold bind at 1, print at 1. cbv beta iota.
    unfold bind at 1, time_sleep at 1. cbv beta iota.
    intros Hrun. destruct (IH _ _ _ _ _ _ _ Hrun) as (rest & Ht & Hall & Hf).
    eexists. split; [rewrite Ht; simpl; rewrite <- !app_assoc; reflexivity|].
    split; [|rewrite Hf; reflexivity].
    simpl. repeat constructor; simpl; auto.
Qed.

(** A run that comes to an end has made one request more than pauses. *)
Lemma poll_loop_counts fuel : forall token asset_id start v0 w r w',
  truthy v0 = false ->
  poll_loop env fuel token asset_id start v0 w = (r, w') ->
  r <> OutOfFuel ->
  exists n,
    naps (trace w') = (naps (trace w) ++ repeat (inject_Z poll_interval) n)%list
    /\ posts w' = (posts w + S n)%nat.
Proof.
  induction fuel as [|fuel IH]; intros token asset_id start v0 w r w' Hv0 Hrun Hr.
  - simpl in Hrun. rewrite Hv0 in Hrun. injection Hrun as <- _. congruence.
  - assert (Hzero : w' = posted env token asset_id w ->
              exists n,
                naps (trace w')
                = (naps (trace w) ++ repeat (inject_Z poll_interval) n)%list
                /\ posts w' = (posts w + S n)%nat).
    { intros ->. exists 0%nat. split; [|simpl; lia].
      simpl repeat. rewrite app_nil_r. apply naps_posted. }
    destruct (try_get_download_url env token asset_id export_payload w)
      as [r1 w1] eqn:E.
    assert (Hfst : fst (try_get_download_url env token asset_id export_payload w)
                   = r1) by (rewrite E; reflexivity).
    destruct r1 as [v1|e|].
    + destruct (truthy v1) eqn:Hv1.
      * rewrite (poll_loop_ready _ _ _ _ _ _ _ _ Hv0 Hfst Hv1) in Hrun.
        injection Hrun as _ <-. apply Hzero. reflexivity.
      * rewrite (poll_loop_pending _ _ _ _ _ _ _ _ Hv0 Hfst Hv1) in Hrun.
        cbv zeta in Hrun.
        destruct (negb (Qle_bool _ _)).
        { injection Hrun as _ <-. apply Hzero. reflexivity. }
        destruct (IH _ _ _ _ _ _ _ Hv1 Hrun Hr) as (n & Hn & Hposts).
        exists (S n). split.
        -- rewrite Hn, naps_after_wait, naps_posted, <- app_assoc. reflexivity.
        -- rewrite Hposts. simpl. lia.
    + rewrite (poll_loop_raise _ _ _ _ _ _ _ Hv0 Hfst) in Hrun.
      injection Hrun as _ <-. apply Hzero. reflexivity.
    + rewrite poll_loop_unfold, Hv0 in Hrun. change (negb false) with true in Hrun.
      cbv iota in Hrun. unfold bind at 1 in Hrun. rewrite E in Hrun.
      injection Hrun as <- _. congruence.
Qed.

End PollMore.

(** X4.  An error of the requester ends the loop at once: after [n]
    pending results within the deadline, the error raised by the next call
    is raised by [export_avatar] itself, with [n] pauses, [n + 1] requests
    and no retry. *)
Theorem export_stops_at_requester_error env token asset_id w n e :
  (forall k, (k < n)%nat -> pending env (posts w + k)) ->
  requester_raises env (posts w + n) e ->
  within_deadline env (clock w) (clock w) (posts w) n ->
  forall fuel,
    (n < fuel)%nat ->
    exists w',
      export_avatar env fuel token asset_id w = (Raise e, w')
      /\ naps (trace w') = (naps (trace w) ++ repeat 5%Q n)%list
      /\ posts w' = (posts w + S n)%nat.
Proof.
  intros Hpending Hraise Hdead fuel Hfuel.
  unfold export_avatar, bind, time_time. cbv beta iota.
  apply (poll_loop_raises env token asset_id (clock w) e); auto.
Qed.

Lemma refused_after_pending n k : (k < n)%nat -> pending (refused_after n) k.
Proof.
  intros Hk. exists JNull. split; [reflexivity|].
  apply (pending_answer (refused_after n) k processing_reply).
  - exists sample_response. split; [|reflexivity].
    simpl. apply Nat.ltb_lt in Hk. rewrite Hk. reflexivity.
  - reflexivity.
Qed.

Lemma refused_after_raises n k :
  (n <= k)%nat -> requester_raises (refused_after n) k connection_refused.
Proof.
  intros Hk token asset_id payload w <-.
  apply requester_propagates_failures_at.
  simpl. apply Nat.ltb_ge in Hk. rewrite Hk. reflexivity.
Qed.

Lemma export_stops_at_requester_error_witness :
  exists w',
    export_avatar (refused_after 1) 2 "secret" "abc-123" fresh
    = (Raise connection_refused, w')
    /\ naps (trace w') = [5%Q]
    /\ posts w' = 2%nat.
Proof.
  apply (export_stops_at_requester_error (refused_after 1) "secret" "abc-123"
           fresh 1 connection_refused).
  - intros k Hk. apply refused_after_pending. exact Hk.
  - apply refused_after_raises. simpl. lia.
  - simpl. split; [discriminate | exact I].
  - lia.
Defined.

(** X5.  [export_avatar] never returns [None], an empty string or any other
    value that counts as false: what it returns passed [if download_url]. *)
Theorem export_avatar_returns_truthy env fuel token asset_id w v w' :
  export_avatar env fuel token asset_id w = (Done v, w') ->
  truthy v = true.
Proof.
  unfold export_avatar, bind, time_time. cbv beta iota.
  apply poll_loop_result_truthy. reflexivity.
Qed.

Lemma export_avatar_returns_truthy_witness :
  truthy (JStr "https://example/x.glb") = true.
Proof.
  apply (export_avatar_returns_truthy (ready_after 1) 2 "secret" "abc-123" fresh
           (JStr "https://example/x.glb")
           (snd (export_avatar (ready_after 1) 2 "secret" "abc-123" fresh))).
  reflexivity.
Defined.

Lemma export_avatar_world env fuel token asset_id w :
  extends w (snd (export_avatar env fuel token asset_id w))
  /\ files (snd (export_avatar env fuel token asset_id w)) = files w.
Proof.
  unfold export_avatar, bind, time_time. cbv beta iota.
  destruct (poll_loop env fuel token asset_id (clock w) JNull w) as [r w'] eqn:E.
  destruct (poll_loop_effects env fuel _ _ _ _ _ _ _ E) as (rest & Ht & _ & Hf).
  split; [exists rest; exact Ht | exact Hf].
Qed.

(** X6.  Whatever the service answers and however the run ends,
    [export_avatar] does nothing but send its request, always to the
    avatar's export endpoint with the bearer header and the fixed payload,
    print to standard output and pause for the poll interval; it leaves
    the file system alone. *)
Theorem export_avatar_effects env fuel token asset_id w :
  exists rest,
    trace (snd (export_avatar env fuel token asset_id w))
    = (trace w ++ rest)%list
    /\ Forall (poll_event token asset_id) rest
    /\ files (snd (export_avatar env fuel token asset_id w)) = files w.
Proof.
  unfold export_avatar, bind, time_time. cbv beta iota.
  destruct (poll_loop env fuel token asset_id (clock w) JNull w) as [r w'] eqn:E.
  exact (poll_loop_effects env fuel _ _ _ _ _ _ _ E).
Qed.

(** X7.  A run of [export_avatar] that comes to an end, by a URL, an error
    or the timeout, has paused some [n] times for 5 seconds and sent
    exactly [n + 1] requests: no pause follows the last request. *)
Theorem export_avatar_requests_and_pauses env fuel token asset_id w r w' :
  export_avatar env fuel token asset_id w = (r, w') ->
  r <> OutOfFuel ->
  exists n,
    naps (trace w') = (naps (trace w) ++ repeat 5%Q n)%list
    /\ posts w' = (posts w + S n)%nat.
Proof.
  unfold export_avatar, bind, time_time. cbv beta iota.
  apply poll_loop_counts. reflexivity.
Qed.

Lemma export_avatar_requests_and_pauses_witness :
  exists n,
    naps (trace (snd (export_avatar (ready_after 3) 9 "secret" "abc-123" fresh)))
    = repeat 5%Q n
    /\ posts (snd (export_avatar (ready_after 3) 9 "secret" "abc-123" fresh))
       = S n.
Proof.
  apply (export_avatar_requests_and_pauses (ready_after 3) 9 "secret" "abc-123"
           fresh (Done (JStr "https://example/x.glb"))).
  - reflexivity.
  - discriminate.
Defined.

(** With requests that take no time and are all pending, an iteration that
    starts [5 * m] seconds before the 605th second pauses [m] more times. *)
Lemma poll_loop_exact_timeout env token asset_id start :
  (forall k, pending env k) ->
  (forall k, (post_latency env k == 0)%Q) ->
  forall m v0 w fuel,
    truthy v0 = false ->
    (clock w - start == 605 - 5 * inject_Z (Z.of_nat m))%Q ->
    (m < fuel)%nat ->
    exists w',
      poll_loop env fuel token asset_id start v0 w = (Raise timed_out, w')
      /\ naps (trace w')
         = (naps (trace w) ++ repeat (inject_Z poll_interval) m)%list
      /\ posts w' = (posts w + S m)%nat.
Proof.
  intros Hpending Hlat.
  induction m as [|m IH]; intros v0 w fuel Hv0 Hclock Hfuel;
    (destruct fuel as [|fuel]; [lia|]);
    destruct (Hpending (posts w)) as (v & Hv & Hret);
    specialize (Hret token asset_id export_payload w eq_refl);
    rewrite (poll_loop_pending _ _ _ _ _ _ _ _ Hv0 Hret Hv); cbv zeta;
    pose proof (Hlat (posts w)) as Hl;
    assert (Hc1 : clock (posted env token asset_id w)
                  = (clock w + post_latency env (posts w))%Q) by reflexivity.
  - assert (Hover : negb (Qle_bool (clock (posted env token asset_id w) - start)
                            (inject_Z max_wait)) = true).
    { apply over_deadline. rewrite Hc1.
      change (inject_Z (Z.of_nat 0)) with 0%Q in Hclock. lra. }
    rewrite Hover. eexists. split; [reflexivity|]. split; [|simpl; lia].
    simpl repeat. rewrite app_nil_r. apply naps_posted.
  - assert (Hm : (0 <= inject_Z (Z.of_nat m))%Q).
    { change 0%Q with (inject_Z 0). rewrite <- Zle_Qle. lia. }
    rewrite Nat2Z.inj_succ in Hclock. unfold Z.succ in Hclock.
    rewrite inject_Z_plus in Hclock. change (inject_Z 1) with 1%Q in Hclock.
    assert (Hover : negb (Qle_bool (clock (posted env token asset_id w) - start)
                            (inject_Z max_wait)) = false).
    { apply negb_false_iff, Qle_bool_iff. rewrite Hc1.
      change (inject_Z max_wait) with 600%Q. lra. }
    rewrite Hover.
    destruct (IH v (after_wait (clock (posted env token asset_id w) - start)
                      (posted env token asset_id w)) fuel Hv)
      as (w' & Hrun & Hn & Hposts).
    + change (clock (after_wait (clock (posted env token asset_id w) - start)
                       (posted env token asset_id w)))
        with (clock (posted env token asset_id w) + inject_Z poll_interval)%Q.
      rewrite Hc1. change (inject_Z poll_interval) with 5%Q. lra.
    + lia.
    + exists w'. rewrite Hrun. split; [reflexivity|]. split.
      * rewrite Hn, naps_after_wait, naps_posted, <- app_assoc. reflexivity.
      * rewrite Hposts. simpl. lia.
Qed.

(** X8.  The deadline is strict: when requests take no time and are all
    pending, the check at exactly 600 seconds still passes, and the loop
    times out at the next one, after exactly 121 pauses and 122 requests. *)
Theorem export_times_out_after_121_pauses env token asset_id w :
  (forall k, pending env k) ->
  (forall k, (post_latency env k == 0)%Q) ->
  forall fuel,
    (121 < fuel)%nat ->
    exists w',
      export_avatar env fuel token asset_id w
      = (Raise (TimeoutError [Lit "Export timed out after "; FmtInt 600;
                              Lit " seconds"]), w')
      /\ naps (trace w') = (naps (trace w) ++ repeat 5%Q 121)%list
      /\ posts w' = (posts w + 122)%nat.
Proof.
  intros Hpending Hlat fuel Hfuel.
  unfold export_avatar, bind, time_time. cbv beta iota.
  apply (poll_loop_exact_timeout env token asset_id (clock w) Hpending Hlat
           121 JNull w fuel); [reflexivity | | exact Hfuel].
  change (inject_Z (Z.of_nat 121)) with 121%Q. lra.
Qed.

Lemma export_times_out_after_121_pauses_witness :
  exists w',
    export_avatar never_ready 122 "secret" "abc-123" fresh
    = (Raise (TimeoutError [Lit "Export timed out after "; FmtInt 600;
                            Lit " seconds"]), w')
    /\ naps (trace w') = repeat 5%Q 121
    /\ posts w' = 122%nat.
Proof.
  apply (export_times_out_after_121_pauses never_ready "secret" "abc-123" fresh
           never_ready_pending).
  - intros k. reflexivity.
  - repeat constructor.
Defined.

(** ** Further properties of the downloader *)

Lemma status_rejected_message r :
  (400 <= status_code r < 600)%Z ->
  exists kind,
    (kind = " Client Error: " \/ kind = " Server Error: ")
    /\ raise_for_status r
       = Raise (HTTPError [FmtInt (status_code r); Lit kind; FmtStr (reason r);
                           Lit " for url: "; FmtStr (response_url r)]).
Proof.
  intros H. unfold raise_for_status.
  destruct ((400 <=? status_code r)%Z && (status_code r <? 500)%Z) eqn:E1.
  { exists " Client Error: ". split; [left; reflexivity | reflexivity]. }
  destruct ((500 <=? status_code r)%Z && (status_code r <? 600)%Z) eqn:E2.
  { exists " Server Error: ". split; [right; reflexivity | reflexivity]. }
  apply andb_false_iff in E1, E2. lia.
Qed.

(** [makedirs] writes nowhere but on the way down. *)
Lemma makedirs_elsewhere below : forall above fs r fs' q,
  makedirs above below fs = (r, fs') ->
  (forall k, q <> (above ++ take k below)%list) ->
  fs' !! q = fs !! q.
Proof.
  induction below as [|name rest IH]; intros above fs r fs' q Hrun Hq;
    simpl in Hrun.
  - injection Hrun as _ <-. reflexivity.
  - assert (Hq' : forall k, q <> ((above ++ [name]) ++ take k rest)%list).
    { intros k. rewrite <- app_assoc. exact (Hq (S k)). }
    destruct (lookup_node fs (above ++ [name])) as [[|content]|] eqn:E.
    + eapply IH; eauto.
    + injection Hrun as _ <-. reflexivity.
    + rewrite (IH _ _ _ _ _ Hrun Hq'). apply lookup_insert_ne.
      intros Heq. apply (Hq' 0%nat). rewrite take_0, app_nil_r. congruence.
Qed.

(** A file where a directory is wanted stops [makedirs]. *)
Lemma makedirs_blocked below : forall above fs content,
  below <> [] ->
  lookup_node fs (above ++ below) = Some (File content) ->
  exists errno strerror filename fs',
    makedirs above below fs = (Raise (OSError errno strerror filename), fs').
Proof.
  induction below as [|name rest IH]; intros above fs content Hne Hfile;
    [congruence|].
  simpl. replace (above ++ name :: rest)%list
    with ((above ++ [name]) ++ rest)%list in Hfile
    by (rewrite <- app_assoc; reflexivity).
  destruct (lookup_node fs (above ++ [name])) as [[|c]|] eqn:E.
  - destruct rest as [|name' rest'].
    + rewrite app_nil_r in Hfile. congruence.
    + apply (IH _ _ content); [discriminate | exact Hfile].
  - destruct rest; eexists _, _, _, _; reflexivity.
  - destruct rest as [|name' rest'].
    + rewrite app_nil_r in Hfile. congruence.
    + apply (IH _ _ content); [discriminate|].
      apply lookup_node_insert_absent; assumption.
Qed.

Lemma nonbase_longer p :
  is_base p = false -> forall k, p <> take k (parent p).
Proof.
  intros Hbase k Heq. apply (f_equal length) in Heq.
  rewrite length_take in Heq. unfold parent in Heq. rewrite Hbase in Heq.
  destruct p as [|a p]; [discriminate|].
  rewrite removelast_firstn_len, length_take in Heq. simpl in Heq. lia.
Qed.

(** X9.  A GET answered with a status from 400 to 599: [download_file]
    raises a RuntimeError whose message is ["Failed to download file: "]
    followed by the message of the HTTPError, which it keeps as cause. *)
Theorem download_wraps_http_error env download_url output_path w w1 r content
    broken :
  prepare_output (path_parts env output_path) w = (Done tt, w1) ->
  http_get env download_url = GetResponse r content broken ->
  (400 <= status_code r < 600)%Z ->
  exists kind,
    (kind = " Client Error: " \/ kind = " Server Error: ")
    /\ let msg := [FmtInt (status_code r); Lit kind; FmtStr (reason r);
                   Lit " for url: "; FmtStr (response_url r)] in
       fst (download_file env download_url output_path w)
       = Raise (RuntimeError (Lit "Failed to download file: " :: msg)
                             (Some (HTTPError msg))).
Proof.
  intros Hprep Hget Hstatus.
  destruct (status_rejected_message r Hstatus) as (kind & Hkind & Hraise).
  exists kind. split; [exact Hkind|]. cbv zeta.
  rewrite (download_file_prepared env _ _ _ _ Hprep). cbv zeta.
  rewrite Hget, Hraise. reflexivity.
Qed.

Lemma download_wraps_http_error_witness :
  exists msg,
    fst (download_file gone (JStr "https://example/x.glb") "abc-123.glb" fresh)
    = Raise (RuntimeError (Lit "Failed to download file: " :: msg)
                          (Some (HTTPError msg))).
Proof.
  destruct (download_wraps_http_error gone (JStr "https://example/x.glb")
              "abc-123.glb" fresh
              (snd (prepare_output ["abc-123.glb"] fresh)) not_found empty_body
              None)
    as (kind & _ & Hrun).
  - reflexivity.
  - reflexivity.
  - simpl. lia.
  - eexists. exact Hrun.
Defined.

(** X10.  A GET that fails in transport with anything but an HTTPError:
    [download_file] raises that error as it is, not wrapped. *)
Theorem download_passes_transport_error env download_url output_path w w1 e :
  prepare_output (path_parts env output_path) w = (Done tt, w1) ->
  http_get env download_url = GetFailed e ->
  (forall msg, e <> HTTPError msg) ->
  download_file env download_url output_path w
  = (Raise e, log (EGet download_url 60) w1).
Proof.
  intros Hprep Hget Hne.
  rewrite (download_file_prepared env _ _ _ _ Hprep). cbv zeta.
  rewrite Hget. destruct e; try reflexivity.
  exfalso. apply (Hne msg). reflexivity.
Qed.

Lemma download_passes_transport_error_witness :
  fst (download_file unreachable (JStr "https://example/x.glb") "abc-123.glb"
         fresh) = Raise connection_refused.
Proof.
  rewrite (download_passes_transport_error unreachable
             (JStr "https://example/x.glb") "abc-123.glb" fresh
             (snd (prepare_output ["abc-123.glb"] fresh)) connection_refused).
  - reflexivity.
  - reflexivity.
  - reflexivity.
  - intros msg. discriminate.
Defined.

(** X11.  When the directory the output file belongs in is an existing
    file, [download_file] raises an OSError from the [mkdir] alone: the
    output file is neither opened nor changed, and no GET is sent. *)
Theorem download_blocked_by_file env download_url output_path w content :
  let p := path_parts env output_path in
  lookup_node (files w) (parent p) = Some (File content) ->
  exists errno strerror filename w',
    download_file env download_url output_path w
    = (Raise (OSError errno strerror filename), w')
    /\ trace w' = (trace w ++ [EMkdir (parent p)])%list
    /\ files w' !! p = files w !! p.
Proof.
  intros p Hfile.
  assert (Hbase : is_base p = false).
  { destruct (is_base p) eqn:E; [|reflexivity].
    unfold parent in Hfile. rewrite E in Hfile.
    rewrite (base_is_dir _ _ E) in Hfile. discriminate. }
  assert (Hne : parent p <> []).
  { intros Heq. rewrite Heq in Hfile. discriminate. }
  destruct (makedirs_blocked (parent p) [] (files w) content Hne Hfile)
    as (errno & strerror & filename & fs' & Hmk).
  exists errno, strerror, filename.
  unfold download_file. cbv zeta. fold p.
  unfold bind at 1, path_mkdir at 1. cbv beta. rewrite Hmk.
  eexists. split; [reflexivity|]. split; [reflexivity|].
  simpl. apply (makedirs_elsewhere _ _ _ _ _ _ Hmk).
  intros k. apply nonbase_longer. exact Hbase.
Qed.

Lemma download_blocked_by_file_witness :
  exists errno strerror filename w',
    download_file (ready_after 0) (JStr "https://example/x.glb")
      "exports/abc-123.glb" file_in_the_way
    = (Raise (OSError errno strerror filename), w')
    /\ trace w' = [EMkdir ["exports"]]
    /\ files w' !! ["exports"; "abc-123.glb"] = None.
Proof.
  apply (download_blocked_by_file (ready_after 0) (JStr "https://example/x.glb")
           "exports/abc-123.glb" file_in_the_way [Byte.x01]).
  reflexivity.
Defined.

(** X12.  When the output path is an existing directory (and its parents
    can be made), [download_file] raises IsADirectoryError from [open]
    and sends no GET. *)
Theorem download_onto_directory env download_url output_path w :
  let p := path_parts env output_path in
  fst (path_mkdir (parent p) w) = Done tt ->
  lookup_node (files w) p = Some Dir ->
  exists w',
    download_file env download_url output_path w
    = (Raise (IsADirectoryError p), w')
    /\ trace w' = (trace w ++ [EMkdir (parent p); EOpen p])%list.
Proof.
  intros p Hmk Hdir.
  unfold download_file. cbv zeta. fold p.
  unfold bind at 1. revert Hmk. unfold path_mkdir at 1 2. cbv beta.
  destruct (makedirs [] (parent p) (files w)) as [r fs] eqn:Emk.
  simpl fst. intros ->.
  unfold bind at 1, open_wb at 1. cbv beta zeta. simpl files.
  rewrite (makedirs_keeps _ _ _ _ _ _ _ Emk Hdir).
  eexists. split; [reflexivity|]. simpl. rewrite <- app_assoc. reflexivity.
Qed.

Lemma download_onto_directory_witness :
  exists w',
    download_file (ready_after 0) (JStr "https://example/x.glb") "abc-123.glb"
      directory_in_place
    = (Raise (IsADirectoryError ["abc-123.glb"]), w')
    /\ trace w' = [EMkdir []; EOpen ["abc-123.glb"]].
Proof.
  apply (download_onto_directory (ready_after 0) (JStr "https://example/x.glb")
           "abc-123.glb" directory_in_place).
  - reflexivity.
  - reflexivity.
Defined.

(** X13.  A stream that breaks off after some bytes: [download_file]
    raises the error of the stream, having written the pieces that came
    before, and leaves the bytes received in the output file; nothing
    removes the partial file. *)
Theorem interrupted_download_leaves_partial_file env download_url output_path
    w w1 r content e :
  let p := path_parts env output_path in
  prepare_output p w = (Done tt, w1) ->
  http_get env download_url = GetResponse r content (Some e) ->
  raise_for_status r = Done tt ->
  exists w',
    download_file env download_url output_path w = (Raise e, w')
    /\ files w' !! p = Some (File (received content))
    /\ trace w'
       = (trace w
          ++ [EMkdir (parent p); EOpen p; EGet download_url 60]
          ++ map (EWrite p) (iter_content (1024 * 1024) content))%list.
Proof.
  intros p Hprep Hget Hstatus.
  destruct (prepare_output_done p w w1 Hprep) as (_ & Hfile & Htrace & _).
  rewrite (download_file_prepared env _ _ _ _ Hprep). cbv zeta. fold p.
  rewrite Hget, Hstatus.
  destruct (write_chunks_spec p (iter_content (1024 * 1024) content)
              (log (EGet download_url 60) w1) [] Hfile)
    as (w3 & Hrun & Hfile3 & Htrace3 & _).
  rewrite Hrun. simpl snd. exists w3. split; [reflexivity|]. split.
  - rewrite Hfile3, iter_content_concat. reflexivity.
  - rewrite Htrace3. simpl trace. rewrite Htrace, <- !app_assoc. reflexivity.
Qed.

Lemma interrupted_download_leaves_partial_file_witness :
  exists w',
    download_file interrupted (JStr "https://example/x.glb") "abc-123.glb" fresh
    = (Raise connection_refused, w')
    /\ files w' !! ["abc-123.glb"] = Some (File sample_bytes).
Proof.
  destruct (interrupted_download_leaves_partial_file interrupted
              (JStr "https://example/x.glb") "abc-123.glb" fresh
              (snd (prepare_output ["abc-123.glb"] fresh)) sample_response
              sample_body connection_refused) as (w' & Hrun & Hfile & _).
  - reflexivity.
  - reflexivity.
  - reflexivity.
  - exists w'. split; [exact Hrun | exact Hfile].
Defined.

(** ** Further properties of the orchestrator *)

(** With the token set, [main] is the export followed by the download,
    every exception ending in the error line and status 1. *)
Lemma main_cases env fuel asset_id token w :
  getenv env "MESHCAPADE_API_TOKEN" = Some token ->
  token <> "" ->
  main env fuel asset_id w
  = match export_avatar env fuel token asset_id (exporting w) with
    | (Done download_url, w1) =>
        match download_file env download_url (asset_id ++ ".glb")
                (downloading w1) with
        | (Done _, w2) => (Done 0%Z, log (success_line asset_id) w2)
        | (Raise e, w2) => (Done 1%Z, log (error_line e) w2)
        | (OutOfFuel, w2) => (OutOfFuel, w2)
        end
    | (Raise e, w1) => (Done 1%Z, log (error_line e) w1)
    | (OutOfFuel, w1) => (OutOfFuel, w1)
    end.
Proof.
  intros Htoken Hne.
  assert (Htrue : truthy (env_value (getenv env "MESHCAPADE_API_TOKEN")) = true).
  { rewrite Htoken. simpl. apply negb_true_iff, String.eqb_neq, Hne. }
  set (after := fun download_url : json =>
         print Stdout [Lit "Export completed!"];;
         print Stdout [Lit "Step 3: Downloading avatar..."];;
         download_file env download_url (asset_id ++ ".glb");;
         print Stdout [Lit (newline ++ "Success! Avatar downloaded and saved to: ");
                       FmtStr (asset_id ++ ".glb")];;
         ret 0%Z).
  set (handler := fun e : exn =>
         print Stderr (Lit "Error: " :: str_exn e);; ret 1%Z).
  assert (Hmain : main env fuel asset_id w
                  = try_except
                      (fun _ => bind (export_avatar env fuel token asset_id)
                                  after (exporting w))
                      handler w).
  { unfold main, try_except, bind at 1, print at 1. cbv beta iota zeta.
    rewrite Htrue, Htoken. reflexivity. }
  rewrite Hmain. unfold try_except, bind at 1.
  destruct (export_avatar env fuel token asset_id (exporting w))
    as [[download_url|e|] w1]; [|reflexivity..].
  unfold after, bind, print. cbv beta iota. fold (downloading w1).
  destruct (download_file env download_url (asset_id ++ ".glb") (downloading w1))
    as [[[]|e|] w2]; reflexivity.
Qed.

(** X14.  With the token set, an export that returns a URL and a download
    that succeeds: [main] ends with status 0, having downloaded the URL to
    [<asset_id>.glb] and printed the success line last. *)
Theorem main_succeeds env fuel asset_id token w download_url w1 :
  getenv env "MESHCAPADE_API_TOKEN" = Some token ->
  token <> "" ->
  export_avatar env fuel token asset_id (exporting w) = (Done download_url, w1) ->
  fst (download_file env download_url (asset_id ++ ".glb") (downloading w1))
  = Done tt ->
  main env fuel asset_id w
  = (Done 0%Z,
     log (success_line asset_id)
       (snd (download_file env download_url (asset_id ++ ".glb")
               (downloading w1)))).
Proof.
  intros Htoken Hne Hexport Hdownload.
  rewrite (main_cases env fuel asset_id token w Htoken Hne), Hexport.
  destruct (download_file env download_url (asset_id ++ ".glb") (downloading w1))
    as [r w2]. simpl in Hdownload. subst r. reflexivity.
Qed.

Lemma main_succeeds_witness :
  fst (main (ready_after 1) 2 "abc-123" fresh) = Done 0%Z
  /\ files (snd (main (ready_after 1) 2 "abc-123" fresh)) !! ["abc-123.glb"]
     = Some (File sample_bytes).
Proof.
  rewrite (main_succeeds (ready_after 1) 2 "abc-123" "secret" fresh
             (JStr "https://example/x.glb")
             (snd (export_avatar (ready_after 1) 2 "secret" "abc-123"
                     (exporting fresh)))).
  - split; reflexivity.
  - reflexivity.
  - discriminate.
  - reflexivity.
  - reflexivity.
Defined.

(** X15.  With the token set, an export that raises: [main] prints
    ["Error: "] and the message of the exception to standard error and ends
    with status 1; it prints nothing else after the export and starts no
    download. *)
Theorem main_reports_export_error env fuel asset_id token w e w1 :
  getenv env "MESHCAPADE_API_TOKEN" = Some token ->
  token <> "" ->
  export_avatar env fuel token asset_id (exporting w) = (Raise e, w1) ->
  main env fuel asset_id w = (Done 1%Z, log (error_line e) w1)
  /\ files (log (error_line e) w1) = files w.
Proof.
  intros Htoken Hne Hexport.
  rewrite (main_cases env fuel asset_id token w Htoken Hne), Hexport.
  split; [reflexivity|]. simpl.
  destruct (export_avatar_world env fuel token asset_id (exporting w))
    as (_ & Hfiles).
  rewrite Hexport in Hfiles. exact Hfiles.
Qed.

Lemma main_reports_export_error_witness :
  fst (main (refused_after 0) 1 "abc-123" fresh) = Done 1%Z
  /\ files (snd (main (refused_after 0) 1 "abc-123" fresh)) = ∅.
Proof.
  destruct (main_reports_export_error (refused_after 0) 1 "abc-123" "secret"
              fresh connection_refused
              (snd (export_avatar (refused_after 0) 1 "secret" "abc-123"
                      (exporting fresh)))) as [Hrun Hfiles].
  - reflexivity.
  - discriminate.
  - reflexivity.
  - rewrite Hrun. split; [reflexivity | exact Hfiles].
Defined.

(** X16.  With the token set, an export that returns a URL and a download
    that raises: [main] prints ["Error: "] and the message of the exception
    to standard error and ends with status 1, without the success line. *)
Theorem main_reports_download_error env fuel asset_id token w download_url w1 e :
  getenv env "MESHCAPADE_API_TOKEN" = Some token ->
  token <> "" ->
  export_avatar env fuel token asset_id (exporting w) = (Done download_url, w1) ->
  fst (download_file env download_url (asset_id ++ ".glb") (downloading w1))
  = Raise e ->
  main env fuel asset_id w
  = (Done 1%Z,
     log (error_line e)
       (snd (download_file env download_url (asset_id ++ ".glb")
               (downloading w1)))).
Proof.
  intros Htoken Hne Hexport Hdownload.
  rewrite (main_cases env fuel asset_id token w Htoken Hne), Hexport.
  destruct (download_file env download_url (asset_id ++ ".glb") (downloading w1))
    as [r w2]. simpl in Hdownload. subst r. reflexivity.
Qed.

Lemma main_reports_download_error_witness :
  fst (main gone 1 "abc-123" fresh) = Done 1%Z
  /\ files (snd (main gone 1 "abc-123" fresh)) !! ["abc-123.glb"]
     = Some (File []).
Proof.
  rewrite (main_reports_download_error gone 1 "abc-123" "secret" fresh
             (JStr "https://example/x.glb")
             (snd (export_avatar gone 1 "secret" "abc-123" (exporting fresh)))
             (RuntimeError
                (Lit "Failed to download file: "
                 :: [FmtInt 404; Lit " Client Error: "; FmtStr "Not Found";
                     Lit " for url: "; FmtStr "https://example/x.glb"])
                (Some (HTTPError
                         [FmtInt 404; Lit " Client Error: "; FmtStr "Not Found";
                          Lit " for url: "; FmtStr "https://example/x.glb"])))).
  - split; reflexivity.
  - reflexivity.
  - discriminate.
  - reflexivity.
  - reflexivity.
Defined.

(** X18.  With the token set and a service that stays pending (no request
    taking negative time), [main] ends with status 1 after printing
    ["Error: Export timed out after 600 seconds"] to standard error; no
    file is created. *)
Theorem main_reports_timeout env fuel asset_id token w :
  getenv env "MESHCAPADE_API_TOKEN" = Some token ->
  token <> "" ->
  (forall k, pending env k) ->
  (forall k, (0 <= post_latency env k)%Q) ->
  (121 < fuel)%nat ->
  exists w',
    main env fuel asset_id w = (Done 1%Z, w')
    /\ last (trace w')
       = Some (EPrint Stderr [Lit "Error: "; Lit "Export timed out after ";
                              FmtInt 600; Lit " seconds"])
    /\ files w' = files w.
Proof.
  intros Htoken Hne Hpending Hlat Hfuel.
  destruct (poll_loop_times_out env token asset_id (clock (exporting w))
              Hpending Hlat 121 JNull (exporting w) fuel)
    as (w1 & pauses & Hrun & _); [reflexivity | | exact Hfuel |].
  { change (inject_Z (Z.of_nat 121)) with 121%Q. lra. }
  assert (Hexport : export_avatar env fuel token asset_id (exporting w)
                    = (Raise timed_out, w1)).
  { unfold export_avatar, bind, time_time. cbv beta iota. exact Hrun. }
  rewrite (main_cases env fuel asset_id token w Htoken Hne), Hexport.
  eexists. split; [reflexivity|]. split.
  - simpl. apply last_snoc.
  - simpl. destruct (export_avatar_world env fuel token asset_id (exporting w))
      as (_ & Hfiles).
    rewrite Hexport in Hfiles. exact Hfiles.
Qed.

Lemma main_reports_timeout_witness :
  exists w',
    main never_ready 122 "abc-123" fresh = (Done 1%Z, w')
    /\ files w' = ∅.
Proof.
  destruct (main_reports_timeout never_ready 122 "abc-123" "secret" fresh)
    as (w' & Hrun & _ & Hfiles).
  - reflexivity.
  - discriminate.
  - exact never_ready_pending.
  - intros k. simpl. discriminate.
  - repeat constructor.
  - exists w'. split; [exact Hrun | exact Hfiles].
Defined.

(** ** The orchestrator: the asset identifier *)

(** C9, as stated, fails: the empty identifier is one the argument parser
    hands over, and with it the run requests [/avatars//export], writes
    [.glb] and ends with status 0. *)
Lemma empty_asset_id_counterexample :
  script (ready_after 0) 1 [""] fresh = main (ready_after 0) 1 "" fresh
  /\ fst (main (ready_after 0) 1 "" fresh) = Done 0%Z
  /\ trace (snd (main (ready_after 0) 1 "" fresh)) !! 2%nat
     = Some (EPost "https://api.meshcapade.com/api/v1/avatars//export"
               (export_headers "secret") export_payload)
  /\ files (snd (main (ready_after 0) 1 "" fresh)) !! [".glb"]
     = Some (File sample_bytes)
  /\ ~ rejects_empty_asset_id (ready_after 0) 1 fresh.
Proof.
  split; [reflexivity|].
  split; [vm_compute; reflexivity|].
  split; [vm_compute; reflexivity|].
  split; [vm_compute; reflexivity|].
  intros (status & w' & Hrun & Hstatus & _).
  apply (f_equal fst) in Hrun. vm_compute in Hrun.
  injection Hrun as <-. apply Hstatus. reflexivity.
Qed.

(** C9, amended.  The script has no check of its own on the identifier;
    the only one is the argument parser's.  Whatever identifier
    [parse_args] hands over, the empty one included, the run is the export
    of that identifier, every request going to [/avatars/<asset_id>/export],
    followed, when a URL comes back, by its download to [<asset_id>.glb],
    where a download that succeeds leaves the body.  When [parse_args]
    ends the process instead, its message and status are all there is. *)
Theorem asset_id_is_used_unchecked env fuel argv asset_id token w :
  parse_args env argv = Parsed asset_id ->
  getenv env "MESHCAPADE_API_TOKEN" = Some token ->
  token <> "" ->
  script env fuel argv w
  = match export_avatar env fuel token asset_id (exporting w) with
    | (Done download_url, w1) =>
        match download_file env download_url (asset_id ++ ".glb")
                (downloading w1) with
        | (Done _, w2) => (Done 0%Z, log (success_line asset_id) w2)
        | (Raise e, w2) => (Done 1%Z, log (error_line e) w2)
        | (OutOfFuel, w2) => (OutOfFuel, w2)
        end
    | (Raise e, w1) => (Done 1%Z, log (error_line e) w1)
    | (OutOfFuel, w1) => (OutOfFuel, w1)
    end
  /\ (exists rest,
        trace (snd (export_avatar env fuel token asset_id (exporting w)))
        = (trace (exporting w) ++ rest)%list
        /\ Forall (poll_event token asset_id) rest
        /\ (fuel <> 0%nat ->
            exists rest',
              rest = EPost (API_BASE_URL ++ "/avatars/" ++ asset_id ++ "/export")
                       (export_headers token) export_payload :: rest'))
  /\ (forall download_url w1,
        export_avatar env fuel token asset_id (exporting w)
        = (Done download_url, w1) ->
        fst (download_file env download_url (asset_id ++ ".glb") (downloading w1))
        = Done tt ->
        exists r content,
          http_get env download_url = GetResponse r content None
          /\ fst (script env fuel argv w) = Done 0%Z
          /\ files (snd (script env fuel argv w))
               !! path_parts env (asset_id ++ ".glb")
             = Some (File (received content)))
  /\ (forall argv' to message status,
        parse_args env argv' = ParserExit to message status ->
        script env fuel argv' w = (Done status, log (EPrint to message) w)).
Proof.
  intros Hparse Htoken Hne.
  assert (Hscript : script env fuel argv w = main env fuel asset_id w).
  { unfold script. rewrite Hparse. reflexivity. }
  split; [|split; [|split]].
  - rewrite Hscript. apply main_cases; assumption.
  - unfold export_avatar, bind, time_time. cbv beta iota.
    destruct (poll_loop env fuel token asset_id (clock (exporting w)) JNull
                (exporting w)) as [r w'] eqn:E.
    destruct (poll_loop_effects env fuel _ _ _ _ _ _ _ E) as (rest & Ht & Hall & _).
    exists rest. split; [exact Ht|]. split; [exact Hall|].
    intros Hfuel. destruct fuel as [|fuel]; [congruence|].
    destruct (poll_loop_posts_first env fuel token asset_id (clock (exporting w))
                JNull (exporting w) eq_refl) as [rest' Hrest'].
    rewrite E in Hrest'. simpl snd in Hrest'. rewrite Ht in Hrest'.
    change (trace (posted env token asset_id (exporting w)))
      with (trace (exporting w)
            ++ [EPost (export_url asset_id) (export_headers token)
                  export_payload])%list in Hrest'.
    rewrite <- app_assoc in Hrest'. apply app_inv_head in Hrest'.
    exists rest'. exact Hrest'.
  - intros download_url w1 Hexport Hdownload.
    destruct (download_file_done env download_url (asset_id ++ ".glb")
                (downloading w1) Hdownload) as (r & content & Hget & _ & Hfile & _).
    exists r, content. split; [exact Hget|].
    rewrite Hscript, (main_cases env fuel asset_id token w Htoken Hne), Hexport.
    destruct (download_file env download_url (asset_id ++ ".glb") (downloading w1))
      as [r2 w2]. simpl in Hdownload, Hfile. subst r2.
    split; [reflexivity | exact Hfile].
  - intros argv' to message status Hexit. unfold script. rewrite Hexit.
    reflexivity.
Qed.

Lemma asset_id_is_used_unchecked_witness :
  fst (script (ready_after 0) 1 ["abc-123"] fresh) = Done 0%Z
  /\ files (snd (script (ready_after 0) 1 ["abc-123"] fresh)) !! ["abc-123.glb"]
     = Some (File sample_bytes).
Proof.
  destruct (asset_id_is_used_unchecked (ready_after 0) 1 ["abc-123"] "abc-123"
              "secret" fresh) as (_ & _ & Hdone & _).
  - reflexivity.
  - reflexivity.
  - discriminate.
  - destruct (Hdone (JStr "https://example/x.glb")
                (snd (export_avatar (ready_after 0) 1 "secret" "abc-123"
                        (exporting fresh))))
      as (r & content & Hget & Hstatus & Hfile).
    + reflexivity.
    + reflexivity.
    + injection Hget as _ <-. split; [exact Hstatus | exact Hfile].
Defined.
